(** * The monitoring agent of celi_framework (core/monitor.py)

    A shallow embedding of [MonitoringAgent.process_queue] and
    [MonitoringAgent.analyze_prompt_completions].  The agent is stateful
    Python: it reads a queue, reads and updates a MongoDB collection, calls a
    language model, appends to two text files and writes log lines, and any of
    these steps may raise.  The embedding is a state-and-exception monad over a
    record holding the collection, the queue, the running flag and the history
    of effects performed so far. *)

From Stdlib Require Import String Ascii List Bool Lia.
From stdpp Require Import base option gmap strings list fin_maps.

Local Open Scope string_scope.
Local Open Scope list_scope.

(** ** Python values *)

(** The values found in a MongoDB document.  The monitor makes four
    observations of a value: its truth value, its [str()] rendering, whether
    it is [None], and whether it equals a given string.  [PyObj] stands for
    any other object (a number, a list of chat turns, a nested document) and
    carries the first two observations. *)
Inductive pyval :=
| PyNone
| PyBool (b : bool)
| PyStr (s : string)
| PyObj (truth : bool) (text : string).

Definition str_truthy (s : string) : bool :=
  match s with EmptyString => false | String _ _ => true end.

Definition truthy (v : pyval) : bool :=
  match v with
  | PyNone => false
  | PyBool b => b
  | PyStr s => str_truthy s
  | PyObj t _ => t
  end.

Definition py_str (v : pyval) : string :=
  match v with
  | PyNone => "None"
  | PyBool true => "True"
  | PyBool false => "False"
  | PyStr s => s
  | PyObj _ t => t
  end.

(** [v == s] for a string literal [s]. *)
Definition py_eq_str (v : pyval) (s : string) : bool :=
  match v with
  | PyStr s' => String.eqb s' s
  | _ => false
  end.

(** [v is not None] *)
Definition is_not_None (v : pyval) : bool :=
  match v with PyNone => false | _ => true end.

(** The line feed of the f-strings. *)
Definition nl : string := String (ascii_of_nat 10) EmptyString.

(** ** Exceptions and results *)

Inductive exn :=
| QueueEmpty
| KeyError (key : string)
| ContextLengthExceededException (msg : string)
| OtherException (msg : string).

(** [str(e)] as interpolated by the f-strings. *)
Definition exn_str (e : exn) : string :=
  match e with
  | QueueEmpty => ""
  | KeyError k => "'" +:+ k +:+ "'"
  | ContextLengthExceededException m => m
  | OtherException m => m
  end.

Inductive result (A : Type) :=
| Ok (a : A)
| Raise (e : exn).
Arguments Ok {A} a.
Arguments Raise {A} e.

#[global] Instance result_mret : MRet result := @Ok.
#[global] Instance result_mbind : MBind result :=
  fun A B f r =>
    match r with
    | Ok a => f a
    | Raise e => Raise e
    end.

(** ** Dictionaries *)

(** [doc[key]] *)
Definition getitem (doc : gmap string pyval) (key : string) : result pyval :=
  match doc !! key with
  | Some v => Ok v
  | None => Raise (KeyError key)
  end.

(** [doc.get(key, dflt)] *)
Definition dict_get (doc : gmap string pyval) (key : string) (dflt : pyval) : pyval :=
  default dflt (doc !! key).

(** The document a Python [if not doc] lets through: [None] and the empty
    dictionary are both false. *)
Definition doc_if_truthy (doc : option (gmap string pyval)) : option (gmap string pyval) :=
  match doc with
  | Some d => if bool_decide (d = ∅) then None else Some d
  | None => None
  end.

(** [{k: v for k, v in vars(secondary_analysis).items() if v is not None}] *)
Definition report_of (attrs : gmap string pyval) : gmap string pyval :=
  filter (fun kv => is_not_None kv.2 = true) attrs.

(** [f"{response}"] for a response that may be [None]. *)
Definition response_str (response : option string) : string :=
  match response with
  | Some r => r
  | None => "None"
  end.

(** [if response:] *)
Definition response_truthy (response : option string) : bool :=
  match response with
  | Some r => str_truthy r
  | None => false
  end.

(** [os.path.join(dir, name)] for a relative [name]. *)
Fixpoint ends_with_slash (s : string) : bool :=
  match s with
  | EmptyString => false
  | String c EmptyString => Ascii.eqb c "/"
  | String _ rest => ends_with_slash rest
  end.

Definition os_path_join (dir name : string) : string :=
  match dir with
  | EmptyString => name
  | _ => if ends_with_slash dir then dir +:+ name else dir +:+ "/" +:+ name
  end.

(** ** is_green_log *)

(** [needle in text] for two strings. *)
Fixpoint str_contains (needle text : string) : bool :=
  match text with
  | EmptyString => String.prefix needle text
  | String _ rest => String.prefix needle text || str_contains needle rest
  end.

(** ["\033[92m"] *)
Definition green_color_code : string := String (ascii_of_nat 27) "[92m".

Definition is_green_log (log_message : string) : bool :=
  str_contains green_color_code log_message.

(** ** The document store *)

(** Modelled from the spec: the write performed by
    [codex.add_or_update_fields_in_document], a method of the MongoDB utility,
    which is not among the sources.  The spec calls it "a partial update,
    never a replace": the named fields take their new values, every other
    field of the record is left as it is, and a record that does not exist is
    not created. *)
Definition merge_fields (document_id : string) (new_fields : gmap string pyval)
    (c : gmap string (gmap string pyval)) : gmap string (gmap string pyval) :=
  match c !! document_id with
  | Some d => <[document_id := new_fields ∪ d]> c
  | None => c
  end.

(** ** Effects and collaborators *)

(** Levels of [app_logger]; the monitor calls only [info] and [error]. *)
Inductive level := INFO | WARNING | ERROR.

(** What the agent does to the outside world, in the order it does it. *)
Inductive effect :=
| Log (lv : level) (msg : string)
| Print (msg : string)
| QuickAsk (prompt model_name : string)
| FileAppend (filename content : string)
| Parse (msg : string)
| StoreUpdate (document_id : string) (new_fields : gmap string pyval)
| Sleep.

(** The collaborators imported by monitor.py, none of which is among the
    sources.  The model endpoint, the parser and the database may answer
    differently from one call to the next: each reads and advances a state of
    the outside [world]. *)
Class Collaborators := {
  world : Type;
  (** [quick_ask(prompt, token_counter, model_name)] *)
  quick_ask : world -> string -> string -> result string * world;
  (** [parse(parser_factory, target_cls=SecondaryAnalysisReport, msg)]; the
      value is [vars()] of the parsed report. *)
  parse : world -> string -> result (gmap string pyval) * world;
  (** The exception, if any, with which the database turns down an update. *)
  update_rejected : world -> string -> gmap string pyval -> option exn * world;
  (** The two prompt templates of [celi_framework.core.templates]. *)
  make_prompt_for_secondary_analysis :
    forall (system_message ongoing_chat prompt_completion response : pyval), string;
  make_prompt_for_function_call_analysis :
    forall (system_message ongoing_chat function_name function_arguments
            prompt_completion : pyval), string;
  (** Python's rendering of a dictionary inside an f-string. *)
  dict_str : gmap string pyval -> string
}.

Section Agent.

Context `{env : Collaborators}.

(** The attributes of a [MonitoringAgent] that the queue loop and the
    analysis use, with the state of the outside world and the effects
    performed so far. *)
Record state := mkState {
  codex : gmap string (gmap string pyval);
  update_queue : list (string * string);
  keep_running : bool;
  prompt_completions_file : string;
  function_calls_file : string;
  outside : world;
  history : list effect
}.

(** [__init__] *)
Definition init (codex : gmap string (gmap string pyval))
    (update_queue : list (string * string)) (evaluations_dir : string)
    (w : world) : state :=
  {| codex := codex;
     update_queue := update_queue;
     keep_running := true;
     prompt_completions_file :=
       os_path_join evaluations_dir "prompt_completions_log.txt";
     function_calls_file :=
       os_path_join evaluations_dir "function_calls_log.txt";
     outside := w;
     history := [] |}.

Definition set_codex (c : gmap string (gmap string pyval)) (s : state) : state :=
  {| codex := c;
     update_queue := update_queue s;
     keep_running := keep_running s;
     prompt_completions_file := prompt_completions_file s;
     function_calls_file := function_calls_file s;
     outside := outside s;
     history := history s |}.

Definition set_update_queue (q : list (string * string)) (s : state) : state :=
  {| codex := codex s;
     update_queue := q;
     keep_running := keep_running s;
     prompt_completions_file := prompt_completions_file s;
     function_calls_file := function_calls_file s;
     outside := outside s;
     history := history s |}.

Definition set_keep_running (b : bool) (s : state) : state :=
  {| codex := codex s;
     update_queue := update_queue s;
     keep_running := b;
     prompt_completions_file := prompt_completions_file s;
     function_calls_file := function_calls_file s;
     outside := outside s;
     history := history s |}.

Definition set_outside (w : world) (s : state) : state :=
  {| codex := codex s;
     update_queue := update_queue s;
     keep_running := keep_running s;
     prompt_completions_file := prompt_completions_file s;
     function_calls_file := function_calls_file s;
     outside := w;
     history := history s |}.

(** The effects [es] are performed, in this order. *)
Definition record (es : list effect) (s : state) : state :=
  {| codex := codex s;
     update_queue := update_queue s;
     keep_running := keep_running s;
     prompt_completions_file := prompt_completions_file s;
     function_calls_file := function_calls_file s;
     outside := outside s;
     history := history s ++ es |}.

(** *** The monad of the agent's methods *)

Definition M (A : Type) : Type := state -> result A * state.

#[global] Instance M_mret : MRet M := fun A a s => (Ok a, s).

#[global] Instance M_mbind : MBind M :=
  fun A B f m s =>
    match m s with
    | (Ok a, s') => f a s'
    | (Raise e, s') => (Raise e, s')
    end.

(** A computation that touches nothing, such as a dictionary access. *)
Definition lift {A} (r : result A) : M A := fun s => (r, s).

(** Reading an attribute of the agent. *)
Definition self {A} (attr : state -> A) : M A := fun s => (Ok (attr s), s).

(** [try: body except ...: handler].  [handler e] is [None] when no except
    clause matches [e].  What [body] did before raising is kept. *)
Definition try_except {A} (body : M A) (handler : exn -> option (M A)) : M A :=
  fun s =>
    match body s with
    | (Ok a, s') => (Ok a, s')
    | (Raise e, s') =>
        match handler e with
        | Some h => h s'
        | None => (Raise e, s')
        end
    end.

Definition emit (e : effect) : M unit := fun s => (Ok tt, record [e] s).

Definition app_logger_info (msg : string) : M unit := emit (Log INFO msg).
Definition app_logger_error (msg : string) : M unit := emit (Log ERROR msg).
Definition print (msg : string) : M unit := emit (Print msg).
Definition time_sleep : M unit := emit Sleep.

(** *** Calls to the collaborators *)

Definition call_quick_ask (prompt model_name : string) : M string :=
  fun s =>
    let '(r, w) := quick_ask (outside s) prompt model_name in
    (r, record [QuickAsk prompt model_name] (set_outside w s)).

Definition call_parse (msg : string) : M (gmap string pyval) :=
  fun s =>
    let '(r, w) := parse (outside s) msg in
    (r, record [Parse msg] (set_outside w s)).

(** Modelled from the spec: [codex.get_document_by_id] belongs to the
    MongoDB utility, which is not among the sources.  The spec gives
    [getById(id, collection) -> WorkItem | absent]; the monitor reads one
    collection only, ["process_executions"]. *)
Definition get_document_by_id (document_id : string) : M (option (gmap string pyval)) :=
  self (fun s => codex s !! document_id).

(** [codex.add_or_update_fields_in_document]: the database either turns the
    update down with an exception or performs [merge_fields]. *)
Definition add_or_update_fields_in_document
    (document_id : string) (new_fields : gmap string pyval) : M unit :=
  fun s =>
    match update_rejected (outside s) document_id new_fields with
    | (Some e, w) => (Raise e, set_outside w s)
    | (None, w) =>
        (Ok tt,
         record [StoreUpdate document_id new_fields]
           (set_codex (merge_fields document_id new_fields (codex s))
              (set_outside w s)))
    end.

(** [with self.append_to_file(filename) as file: file.write(content)] *)
Definition append_to_file (filename content : string) : M unit :=
  emit (FileAppend filename content).

(** *** analyze_prompt_completions *)

(** Lines 195-201. *)
Definition prompt_exception_of (doc : gmap string pyval) : pyval :=
  dict_get doc "prompt_exception" (PyBool true).

Definition note_prompt_exception (doc : gmap string pyval) : M unit :=
  if truthy (prompt_exception_of doc) then
    prompt_completion ← lift (getitem doc "prompt_completion");
    app_logger_info
      ("Handling exception by analyzing the prompt completion:" +:+ nl +:+
       py_str prompt_completion)
  else mret tt.

(** Lines 203-220: the template is chosen by [finish_reason]. *)
Definition build_prompt (doc : gmap string pyval) : result string :=
  finish_reason ← getitem doc "finish_reason";
  if py_eq_str finish_reason "function_call" then
    system_message ← getitem doc "system_message";
    ongoing_chat ← getitem doc "ongoing_chat";
    let function_name :=
      dict_get doc "function_name" (PyStr "Unknown function name") in
    let function_arguments :=
      dict_get doc "function_arguments" (PyStr "Unknown arguments") in
    prompt_completion ← getitem doc "prompt_completion";
    mret (make_prompt_for_function_call_analysis
            system_message ongoing_chat function_name function_arguments
            prompt_completion)
  else
    system_message ← getitem doc "system_message";
    ongoing_chat ← getitem doc "ongoing_chat";
    prompt_completion ← getitem doc "prompt_completion";
    response ← getitem doc "response_msg";
    mret (make_prompt_for_secondary_analysis
            system_message ongoing_chat prompt_completion response).

Definition primary_model (prompt_exception : pyval) : string :=
  if truthy prompt_exception then "gpt-4-32k" else "gpt-4-0125-preview".

Definition fallback_model : string := "gpt-4-1106-preview".

(** Lines 222-249: the value left in [response] by the nested try blocks. *)
Definition secondary_analysis_response
    (prompt_exception : pyval) (prompt : string) : M (option string) :=
  let model_name := primary_model prompt_exception in
  try_except
    (response ← call_quick_ask prompt model_name;
     mret (Some response))
    (fun e =>
       match e with
       | ContextLengthExceededException _ =>
           Some
             (app_logger_info
                ("Context length issue with model " +:+ model_name +:+ ": " +:+
                 exn_str e);;
              let model_name := fallback_model in
              try_except
                (app_logger_info
                   ("Trying " +:+ model_name +:+ " instead: " +:+ exn_str e);;
                 response ← call_quick_ask prompt model_name;
                 mret (Some response))
                (fun e' =>
                   match e' with
                   | ContextLengthExceededException _ =>
                       Some
                         (app_logger_error
                            ("Failed again with model " +:+ model_name +:+ ": " +:+
                             exn_str e');;
                          mret None)
                   | _ => None
                   end))
       | _ => None
       end).

(** Lines 256-262. *)
Definition log_file_of (finish_reason : pyval) (s : state) : string :=
  if py_eq_str finish_reason "function_call"
  then function_calls_file s
  else prompt_completions_file s.

(** Line 264. *)
Definition log_content_of (document_id : string) (prompt_completion : pyval)
    (response : option string) : string :=
  "Document ID: " +:+ document_id +:+ nl +:+
  "Prompt Completion:" +:+ py_str prompt_completion +:+ nl +:+
  "Evaluation: " +:+ response_str response +:+ nl +:+ nl.

(** Lines 251-268: the analysis is written to one of the two files. *)
Definition log_analysis (document_id : string) (doc : gmap string pyval)
    (response : option string) : M unit :=
  app_logger_info
    ("Secondary Analysis for " +:+ document_id +:+ ":" +:+ nl +:+
     response_str response);;
  finish_reason ← lift (getitem doc "finish_reason");
  log_file ← self (log_file_of finish_reason);
  prompt_completion ← lift (getitem doc "prompt_completion");
  let log_content := log_content_of document_id prompt_completion response in
  append_to_file log_file log_content;;
  app_logger_info ("Logged analysis to " +:+ log_file).

(** Lines 270-303: the response, if there is one, is parsed and stored. *)
Definition process_response (document_id : string) (doc : gmap string pyval)
    (response : option string) : M unit :=
  if response_truthy response then
    app_logger_info
      ("Response from secondary analysis for task " +:+
       py_str (dict_get doc "task" (PyStr "Unknown task")) +:+ "-" +:+
       py_str (dict_get doc "task_desc" (PyStr "")));;
    secondary_analysis ← call_parse (response_str response);
    try_except
      (let report := report_of secondary_analysis in
       app_logger_info ("Parsed Evaluation Report:" +:+ nl +:+ dict_str report);;
       add_or_update_fields_in_document document_id report;;
       app_logger_info
         ("Updated document with analysis report for doc " +:+ document_id +:+ "."))
      (fun e =>
         Some
           (app_logger_error
              ("Failed to update document " +:+ document_id +:+
               " with analysis report: " +:+ exn_str e)))
  else
    app_logger_error "No response received from secondary analysis.".

Definition analyze_prompt_completions (document_id : string) : M unit :=
  doc ← get_document_by_id document_id;
  match doc_if_truthy doc with
  | None =>
      app_logger_error ("Document with ID " +:+ document_id +:+ " not found.")
  | Some doc =>
      note_prompt_exception doc;;
      prompt ← lift (build_prompt doc);
      response ← secondary_analysis_response (prompt_exception_of doc) prompt;
      log_analysis document_id doc response;;
      process_response document_id doc response
  end.

(** *** process_queue *)

(** [self.update_queue.get_nowait()] *)
Definition get_nowait : M (string * string) :=
  fun s =>
    match update_queue s with
    | [] => (Raise QueueEmpty, s)
    | item :: rest => (Ok item, set_update_queue rest s)
    end.

(** One turn of the [while] loop: the [try] statement of lines 144-164. *)
Definition process_queue_iteration : M unit :=
  try_except
    (item ← get_nowait;
     let '(update_type, prompt_data) := item in
     if String.eqb update_type "doc_save" then
       print "Processing prompt completion from queue.";;
       app_logger_info ("Dequeued document ID " +:+ prompt_data +:+ " to monitor");;
       analyze_prompt_completions prompt_data
     else if String.eqb update_type "pop_context_triggered" then
       print "pop_context_triggered received in Monitor"
     else mret tt)
    (fun e =>
       match e with
       | QueueEmpty => Some time_sleep
       | _ => None
       end).

(** How a bounded run of the loop ends: the flag was found cleared, an
    exception left the loop, or the loop is still turning. *)
Inductive loop_end :=
| Stopped
| Crashed (e : exn)
| Running.

(** [process_queue], run for at most [fuel] turns of the loop. *)
Fixpoint process_queue (fuel : nat) (s : state) : loop_end * state :=
  match fuel with
  | O => (Running, s)
  | S fuel' =>
      if keep_running s then
        match process_queue_iteration s with
        | (Ok _, s') => process_queue fuel' s'
        | (Raise e, s') => (Crashed e, s')
        end
      else (Stopped, s)
  end.

(** [self.keep_running = False] *)
Definition clear_keep_running : M unit :=
  fun s => (Ok tt, set_keep_running false s).

(** [stop()] *)
Definition stop : M unit :=
  app_logger_info "Stopped monitor";;
  clear_keep_running.

(** [__init__] with the line that it logs.  [counter_type] is the attribute
    of that name of the [TokenCounter(counter_type="monitor")] that the
    constructor creates; the class is not among the sources. *)
Definition construct (codex : gmap string (gmap string pyval))
    (update_queue : list (string * string)) (evaluations_dir : string)
    (w : world) (counter_type : string) : state :=
  record [Log INFO ("Initialized global_token_counter: " +:+ counter_type)]
    (init codex update_queue evaluations_dir w).

(** An event of a kind that [process_queue] has no branch for. *)
Definition unknown_kind (item : string * string) : Prop :=
  item.1 <> "doc_save" /\ item.1 <> "pop_context_triggered".

(** *** Observations of a history *)

(** The effects performed between two states of one run. *)
Definition since (s s' : state) : list effect :=
  drop (length (history s)) (history s').

Definition file_appends (es : list effect) : list (string * string) :=
  omap (fun e => match e with FileAppend f c => Some (f, c) | _ => None end) es.

Definition model_calls (es : list effect) : list (string * string) :=
  omap (fun e => match e with QuickAsk p m => Some (p, m) | _ => None end) es.

Definition store_updates (es : list effect) : list (string * gmap string pyval) :=
  omap (fun e => match e with StoreUpdate d f => Some (d, f) | _ => None end) es.

Definition parse_calls (es : list effect) : list string :=
  omap (fun e => match e with Parse m => Some m | _ => None end) es.

Definition log_lines (lv : level) (es : list effect) : list string :=
  omap (fun e =>
          match e, lv with
          | Log INFO m, INFO | Log WARNING m, WARNING | Log ERROR m, ERROR => Some m
          | _, _ => None
          end) es.

(** *** The effects of each block, by outcome *)

(** Lines 197-201: the line logged when [prompt_exception] is true. *)
Definition prompt_exception_note (doc : gmap string pyval)
    (prompt_completion : pyval) : list effect :=
  if truthy (prompt_exception_of doc) then
    [Log INFO
       ("Handling exception by analyzing the prompt completion:" +:+ nl +:+
        py_str prompt_completion)]
  else [].

(** Lines 228-244: the first attempt was over the size limit with message
    [m1], and the prompt was sent again. *)
Definition retry_effects (prompt_exception : pyval) (prompt m1 : string) : list effect :=
  [QuickAsk prompt (primary_model prompt_exception);
   Log INFO
     ("Context length issue with model " +:+ primary_model prompt_exception +:+
      ": " +:+ m1);
   Log INFO ("Trying " +:+ fallback_model +:+ " instead: " +:+ m1);
   QuickAsk prompt fallback_model].

(** Lines 245-249: the second attempt was over the size limit too, with
    message [m2]. *)
Definition gave_up_effects (prompt_exception : pyval) (prompt m1 m2 : string) :
    list effect :=
  retry_effects prompt_exception prompt m1 ++
  [Log ERROR ("Failed again with model " +:+ fallback_model +:+ ": " +:+ m2)].

(** Lines 251-268. *)
Definition audit_effects (document_id : string) (finish_reason prompt_completion : pyval)
    (response : option string) (s : state) : list effect :=
  [Log INFO
     ("Secondary Analysis for " +:+ document_id +:+ ":" +:+ nl +:+
      response_str response);
   FileAppend (log_file_of finish_reason s)
     (log_content_of document_id prompt_completion response);
   Log INFO ("Logged analysis to " +:+ log_file_of finish_reason s)].

Definition no_response_line : effect :=
  Log ERROR "No response received from secondary analysis.".

(** Lines 272-279: the response is announced and handed to the parser. *)
Definition parse_effects (doc : gmap string pyval) (response : option string) :
    list effect :=
  [Log INFO
     ("Response from secondary analysis for task " +:+
      py_str (dict_get doc "task" (PyStr "Unknown task")) +:+ "-" +:+
      py_str (dict_get doc "task_desc" (PyStr "")));
   Parse (response_str response)].

(** Lines 283-297: the report is stored. *)
Definition stored_effects (document_id : string) (report : gmap string pyval) :
    list effect :=
  [Log INFO ("Parsed Evaluation Report:" +:+ nl +:+ dict_str report);
   StoreUpdate document_id report;
   Log INFO ("Updated document with analysis report for doc " +:+ document_id +:+ ".")].

(** Lines 283-301: the database turned the update down with [e]. *)
Definition rejected_effects (document_id : string) (report : gmap string pyval)
    (e : exn) : list effect :=
  [Log INFO ("Parsed Evaluation Report:" +:+ nl +:+ dict_str report);
   Log ERROR
     ("Failed to update document " +:+ document_id +:+
      " with analysis report: " +:+ exn_str e)].

(** The effects that neither write a file nor touch the store nor parse. *)
Definition ask_or_log (e : effect) : bool :=
  match e with
  | Log _ _ | QuickAsk _ _ => true
  | _ => false
  end.

(** *** What the spec asks of the templates *)

(** [needle] appears in [text]. *)
Definition occurs_in (needle text : string) : Prop :=
  exists before after, text = before +:+ needle +:+ after.

(** Modelled from the spec: the templates of [celi_framework.core.templates]
    are not among the sources.  Of the function-call template the spec says
    that "the function-call template inputs (function name, function
    arguments) must appear in the constructed prompt". *)
Definition function_call_template_shows_inputs : Prop :=
  forall system_message ongoing_chat function_name function_arguments prompt_completion,
    let prompt :=
      make_prompt_for_function_call_analysis system_message ongoing_chat
        function_name function_arguments prompt_completion in
    occurs_in (py_str function_name) prompt /\
    occurs_in (py_str function_arguments) prompt.

(** Modelled from the spec: of the general template the spec says that
    "the response message must appear instead". *)
Definition secondary_template_shows_response : Prop :=
  forall system_message ongoing_chat prompt_completion response,
    occurs_in (py_str response)
      (make_prompt_for_secondary_analysis system_message ongoing_chat
         prompt_completion response).

(** *** Observations of a run of the loop *)

(** The document ids of the doc_save events among [items]. *)
Definition doc_saves (items : list (string * string)) : list string :=
  omap (fun item => if String.eqb item.1 "doc_save" then Some item.2 else None) items.

(** What one analysis of [document_id] may do to the world, from the state
    [s] to a store [c] through the effects [es]: at most one record appended,
    to one of the agent's two files; at most two model calls and one call of
    the parser; and either no store update, or one update of [document_id]
    with a report free of None. *)
Definition one_analysis (document_id : string) (s : state)
    (c : gmap string (gmap string pyval)) (es : list effect) : Prop :=
  length (file_appends es) <= 1 /\
  length (model_calls es) <= 2 /\
  length (parse_calls es) <= 1 /\
  (forall f content,
      In (f, content) (file_appends es) ->
      f = function_calls_file s \/ f = prompt_completions_file s) /\
  (store_updates es = [] /\ c = codex s \/
   exists attrs,
     store_updates es = [(document_id, report_of attrs)] /\
     c = merge_fields document_id (report_of attrs) (codex s)).

(** The state [s'] is reached from [s] by taking the events [taken] off the
    front of the queue and performing the effects [es]; the running flag and
    the two file names are those of [s]. *)
Definition reached (s s' : state) (taken : list (string * string))
    (es : list effect) : Prop :=
  update_queue s = taken ++ update_queue s' /\
  history s' = history s ++ es /\
  keep_running s' = keep_running s /\
  prompt_completions_file s' = prompt_completions_file s /\
  function_calls_file s' = function_calls_file s.

(** What a stretch of the loop that took the events [taken] off the queue
    may have done, from the state [s] to a store [c] through the effects
    [es]: no more records, parser calls and store updates than doc_save
    events, no more than two model calls for each; records go to the agent's
    two files only; only the documents named by the doc_save events taken are
    updated, and every other document is as it was. *)
Definition within_budget (s : state) (taken : list (string * string))
    (c : gmap string (gmap string pyval)) (es : list effect) : Prop :=
  length (file_appends es) <= length (doc_saves taken) /\
  length (model_calls es) <= 2 * length (doc_saves taken) /\
  length (parse_calls es) <= length (doc_saves taken) /\
  length (store_updates es) <= length (doc_saves taken) /\
  (forall f content,
      In (f, content) (file_appends es) ->
      f = function_calls_file s \/ f = prompt_completions_file s) /\
  (forall document_id fields,
      In (document_id, fields) (store_updates es) ->
      In document_id (doc_saves taken)) /\
  (forall document_id,
      ~ In document_id (doc_saves taken) ->
      c !! document_id = codex s !! document_id).

End Agent.

(** * The literature-review tools (examples/lit_review/tools.py)

    [retrieve_relevant_literature] and [save_draft] of
    [LitReviewToolImplementations].  They call the network, the clock, the
    JSON codec and the file system; as for the monitor, the collaborators are
    a class and what the tools do to the world is kept as a trace. *)

(** [os.path.dirname(p)]: the part of [p] up to its last slash, without
    trailing slashes unless it consists of slashes only. *)
Fixpoint head_to_last_slash (p : string) : string :=
  match p with
  | EmptyString => EmptyString
  | String c rest =>
      let head := head_to_last_slash rest in
      if Ascii.eqb c "/" then String c head
      else match head with
           | EmptyString => EmptyString
           | _ => String c head
           end
  end.

Fixpoint all_slashes (p : string) : bool :=
  match p with
  | EmptyString => true
  | String c rest => Ascii.eqb c "/" && all_slashes rest
  end.

(** [head.rstrip('/')] *)
Fixpoint rstrip_slashes (p : string) : string :=
  match p with
  | EmptyString => EmptyString
  | String c rest =>
      match rstrip_slashes rest with
      | EmptyString => if Ascii.eqb c "/" then EmptyString else String c EmptyString
      | rest' => String c rest'
      end
  end.

Definition os_path_dirname (p : string) : string :=
  let head := head_to_last_slash p in
  if str_truthy head && negb (all_slashes head) then rstrip_slashes head else head.

Module Tools.

(** The exceptions that the tools raise themselves, and [OtherError] for
    whatever a collaborator raises. *)
Inductive exn :=
| UnboundLocalError (name : string)
| TypeError
| OtherError (msg : string).

Inductive outcome (A : Type) :=
| Returned (a : A)
| Raised (e : exn).
Arguments Returned {A} a.
Arguments Raised {A} e.

Inductive effect :=
| Get (url : string)
| LoggerInfo (msg : string)
| Print (msg : string)
| MakeDirs (path : string)
| WriteFile (path content : string).

Class Services := {
  world : Type;
  response : Type;
  json : Type;
  (** [requests.get(url)] *)
  requests_get : world -> string -> outcome response * world;
  (** [response.json()] *)
  response_json : response -> outcome json;
  (** [json.loads(text)]: the value, or the message of the JSONDecodeError. *)
  json_loads : string -> json + string;
  (** What [json.dump] writes. *)
  json_dumps : json -> string;
  (** [datetime.now().strftime("%m%d%y-%H%M%S")] *)
  strftime_now : world -> string * world
}.

Section Tools.

Context `{services : Services}.

Record state := mkState {
  outside : world;
  trace : list effect
}.

Definition perform (es : list effect) (w : world) (s : state) : state :=
  {| outside := w; trace := trace s ++ es |}.

(** [query.replace(" ", "+")] *)
Fixpoint replace_spaces (query : string) : string :=
  match query with
  | EmptyString => EmptyString
  | String c rest =>
      String (if Ascii.eqb c " " then "+"%char else c) (replace_spaces rest)
  end.

(** [sep.join(items)] *)
Fixpoint join (sep : string) (items : list string) : string :=
  match items with
  | [] => EmptyString
  | [item] => item
  | item :: rest => item +:+ sep +:+ join sep rest
  end.

(** The url of lines 84-85, for one query. *)
Definition url_of (query : string) (limit : pyval) (fields : list string) : string :=
  "https://api.semanticscholar.org/graph/v1/paper/search?query=" +:+
  replace_spaces query +:+ "&limit=" +:+ py_str limit +:+
  "&fields=" +:+ join "," fields.

(** [response = requests.get(url)] followed by [response.json()]. *)
Definition fetch (url : string) (s : state) : outcome json * state :=
  match requests_get (outside s) url with
  | (Returned r, w) => (response_json r, perform [Get url] w s)
  | (Raised e, w) => (Raised e, perform [Get url] w s)
  end.

(** The for loop of lines 83-90; the value is the local variable [url], which
    is unbound ([None]) until the first turn has assigned it. *)
Fixpoint for_queries (queries : list string) (limit : pyval) (fields : list string)
    (url : option string) (s : state) : outcome (option string) * state :=
  match queries with
  | [] => (Returned url, s)
  | query :: rest =>
      let url := url_of query limit fields in
      match fetch url s with
      | (Returned _, s') => for_queries rest limit fields (Some url) s'
      | (Raised e, s') => (Raised e, s')
      end
  end.

Definition retrieve_relevant_literature (queries : list string) (limit : pyval)
    (fields : list string) (s : state) : outcome json * state :=
  match for_queries queries limit fields None s with
  | (Raised e, s') => (Raised e, s')
  | (Returned None, s') => (Raised (UnboundLocalError "url"), s')
  | (Returned (Some url), s') => fetch url s'
  end.

(** The defaults of the parameters [limit] and [fields]. *)
Definition default_limit : pyval := PyObj true "20".
Definition default_fields : list string := ["title"; "abstract"; "venue"; "year"].

Definition draft_directory : string :=
  "celi_framework/examples/lit-review/output/draft/".

(** [save_draft(draft_dict)], with the module constant [ROOT_DIR], which
    [os.getenv] leaves [None] when the variable is not set.  The value is
    what the function returns: [None] after a decoding error, the decoded
    draft otherwise. *)
Definition save_draft (ROOT_DIR : option string) (draft_dict : string) (s : state) :
    outcome (option json) * state :=
  let '(timestamp, w) := strftime_now (outside s) in
  let s1 :=
    perform [LoggerInfo ("DRAFT DICT TEXT LOOKS LIKE THIS" +:+ nl +:+ draft_dict)] w s in
  match ROOT_DIR with
  | None => (Raised TypeError, s1)
  | Some root =>
      let output_path :=
        os_path_join (os_path_join root draft_directory)
          ("response-" +:+ timestamp +:+ ".txt") in
      match json_loads draft_dict with
      | inr e =>
          (Returned None, perform [Print ("Failed to decode JSON: " +:+ e)] w s1)
      | inl structured_dict =>
          (Returned (Some structured_dict),
           perform [MakeDirs (os_path_dirname output_path);
                    WriteFile output_path (json_dumps structured_dict)] w s1)
      end
  end.

(** The urls requested along a trace. *)
Definition requested (es : list effect) : list string :=
  omap (fun e => match e with Get url => Some url | _ => None end) es.

(** No slash in [name]. *)
Fixpoint no_slash (name : string) : bool :=
  match name with
  | EmptyString => true
  | String c rest => negb (Ascii.eqb c "/") && no_slash rest
  end.

End Tools.

End Tools.

(** ** Scenarios *)

(** Modelled from the spec: the two templates of
    [celi_framework.core.templates] are not among the sources.  The spec
    lists the inputs of each and requires that they appear in the prompt;
    these stand-ins write every input on a line of its own under a title. *)
Definition sample_secondary_template
    (system_message ongoing_chat prompt_completion response : pyval) : string :=
  "Secondary analysis" +:+ nl +:+ py_str system_message +:+ nl +:+
  py_str ongoing_chat +:+ nl +:+ py_str prompt_completion +:+ nl +:+
  py_str response.

Definition sample_function_call_template
    (system_message ongoing_chat function_name function_arguments
     prompt_completion : pyval) : string :=
  "Function call analysis" +:+ nl +:+ py_str system_message +:+ nl +:+
  py_str ongoing_chat +:+ nl +:+ py_str function_name +:+ nl +:+
  py_str function_arguments +:+ nl +:+ py_str prompt_completion.

(** Collaborators that answer by the model name alone: a scripted endpoint,
    a parser with one fixed answer and a database with one fixed verdict. *)
Definition scripted (answer : string -> result string)
    (parsed : result (gmap string pyval)) (verdict : option exn) : Collaborators :=
  {| world := unit;
     quick_ask := fun w _ model_name => (answer model_name, w);
     parse := fun w _ => (parsed, w);
     update_rejected := fun w _ _ => (verdict, w);
     make_prompt_for_secondary_analysis := sample_secondary_template;
     make_prompt_for_function_call_analysis := sample_function_call_template;
     dict_str := fun _ => "{...}" |}.

Definition sample_report : gmap string pyval :=
  {[ "accuracy" := PyStr "high"; "completeness" := PyNone ]}.

(** Every model is over its size limit. *)
Definition too_long_everywhere : Collaborators :=
  scripted (fun _ => Raise (ContextLengthExceededException "context length exceeded"))
    (Ok sample_report) None.

(** The endpoint cannot be reached. *)
Definition endpoint_down : Collaborators :=
  scripted (fun _ => Raise (OtherException "connection reset"))
    (Ok sample_report) None.

(** The endpoint answers at once and the answer parses. *)
Definition all_well : Collaborators :=
  scripted (fun _ => Ok "looks fine") (Ok sample_report) None.

Definition doc_7 : gmap string pyval :=
  {[ "system_message" := PyStr "You draft documents.";
     "ongoing_chat" := PyStr "user: draft section 1";
     "prompt_completion" := PyStr "Section 1 ...";
     "finish_reason" := PyStr "stop";
     "response_msg" := PyStr "Here is section 1." ]}.

Definition doc_42 : gmap string pyval :=
  <["prompt_exception" := PyBool false]> doc_7.

Definition doc_call : gmap string pyval :=
  {[ "system_message" := PyStr "You draft documents.";
     "ongoing_chat" := PyStr "user: save the draft";
     "prompt_completion" := PyStr "save_draft";
     "finish_reason" := PyStr "function_call" ]}.

Definition sample_store : gmap string (gmap string pyval) :=
  {[ "doc-7" := doc_7; "doc-42" := doc_42; "doc-call" := doc_call ]}.

(** The parser cannot make sense of the answer. *)
Definition parser_broken : Collaborators :=
  scripted (fun _ => Ok "looks fine") (Raise (OtherException "no JSON found")) None.

(** The work item of ["doc-call"] with its function name and arguments. *)
Definition doc_call_named : gmap string pyval :=
  <["function_name" := PyStr "save_draft"]>
    (<["function_arguments" := PyObj true "{'path': 'draft.txt'}"]> doc_call).

(** The store turns every update down. *)
Definition store_rejects : Collaborators :=
  scripted (fun _ => Ok "looks fine") (Ok sample_report)
    (Some (OtherException "write concern failed")).

(** The endpoint answers with the empty string. *)
Definition empty_answers : Collaborators :=
  scripted (fun _ => Ok "") (Ok sample_report) None.

(** A work item that was saved without its finish_reason. *)
Definition doc_bare : gmap string pyval :=
  {[ "system_message" := PyStr "You draft documents.";
     "prompt_completion" := PyStr "Section 2 ..." ]}.

(** A store that also holds the bare work item and an empty document. *)
Definition ragged_store : gmap string (gmap string pyval) :=
  <["doc-bare" := doc_bare]> (<["doc-empty" := ∅]> sample_store).

(** The endpoint fails with an exception of class queue.Empty. *)
Definition endpoint_raises_empty : Collaborators :=
  scripted (fun _ => Raise QueueEmpty) (Ok sample_report) None.

(** The agent as constructed over the sample store, with a queue. *)
Definition agent_over (env : Collaborators) (w : @world env)
    (queue : list (string * string)) : @state env :=
  init sample_store queue "evaluations" w.

Definition prompt_7 : string :=
  sample_secondary_template (PyStr "You draft documents.")
    (PyStr "user: draft section 1") (PyStr "Section 1 ...")
    (PyStr "Here is section 1.").

(** Services for the tools: every request is answered with the url it was
    sent to, except the urls in [down], which fail; the clock is stopped. *)
Definition scripted_services (down : list string) (timestamp : string) : Tools.Services :=
  {| Tools.world := unit;
     Tools.response := string;
     Tools.json := string;
     Tools.requests_get := fun w url =>
       (if bool_decide (url ∈ down)
        then Tools.Raised (Tools.OtherError "connection refused")
        else Tools.Returned url, w);
     Tools.response_json := fun r => Tools.Returned ("papers for " +:+ r);
     Tools.json_loads := fun text =>
       match text with
       | String "{" _ => inl text
       | _ => inr "Expecting value: line 1 column 1 (char 0)"
       end;
     Tools.json_dumps := fun j => j;
     Tools.strftime_now := fun w => (timestamp, w) |}.

(** ** Properties *)

Section Properties.

Context `{env : Collaborators}.

Implicit Types (s : state) (doc : gmap string pyval) (es : list effect).

(** *** States and histories *)

(** The setters commute; a state reached along a run is brought to the form
    [record es (set_codex c (set_outside w (set_update_queue q s)))]. *)

Lemma record_record es1 es2 s : record es2 (record es1 s) = record (es1 ++ es2) s.
Proof. unfold record; simpl. by rewrite app_assoc. Qed.

Lemma set_outside_record w es s : set_outside w (record es s) = record es (set_outside w s).
Proof. reflexivity. Qed.

Lemma set_codex_record c es s : set_codex c (record es s) = record es (set_codex c s).
Proof. reflexivity. Qed.

Lemma set_update_queue_record q es s :
  set_update_queue q (record es s) = record es (set_update_queue q s).
Proof. reflexivity. Qed.

Lemma set_outside_set_outside w1 w2 s : set_outside w2 (set_outside w1 s) = set_outside w2 s.
Proof. reflexivity. Qed.

Lemma set_codex_set_codex c1 c2 s : set_codex c2 (set_codex c1 s) = set_codex c2 s.
Proof. reflexivity. Qed.

Lemma set_outside_set_codex w c s :
  set_outside w (set_codex c s) = set_codex c (set_outside w s).
Proof. reflexivity. Qed.

Lemma set_update_queue_set_outside q w s :
  set_update_queue q (set_outside w s) = set_outside w (set_update_queue q s).
Proof. reflexivity. Qed.

Lemma set_update_queue_set_codex q c s :
  set_update_queue q (set_codex c s) = set_codex c (set_update_queue q s).
Proof. reflexivity. Qed.

Lemma history_record es s : history (record es s) = history s ++ es.
Proof. reflexivity. Qed.

Lemma history_set_outside w s : history (set_outside w s) = history s.
Proof. reflexivity. Qed.

Lemma history_set_codex c s : history (set_codex c s) = history s.
Proof. reflexivity. Qed.

Lemma history_set_update_queue q s : history (set_update_queue q s) = history s.
Proof. reflexivity. Qed.

Lemma outside_record es s : outside (record es s) = outside s.
Proof. reflexivity. Qed.

Lemma outside_set_outside w s : outside (set_outside w s) = w.
Proof. reflexivity. Qed.

Lemma codex_record es s : codex (record es s) = codex s.
Proof. reflexivity. Qed.

Lemma codex_set_outside w s : codex (set_outside w s) = codex s.
Proof. reflexivity. Qed.

Lemma codex_set_codex c s : codex (set_codex c s) = c.
Proof. reflexivity. Qed.

Lemma codex_set_update_queue q s : codex (set_update_queue q s) = codex s.
Proof. reflexivity. Qed.

Lemma log_file_of_record fr es s : log_file_of fr (record es s) = log_file_of fr s.
Proof. reflexivity. Qed.

Lemma log_file_of_set_outside fr w s : log_file_of fr (set_outside w s) = log_file_of fr s.
Proof. reflexivity. Qed.

Lemma log_file_of_set_codex fr c s : log_file_of fr (set_codex c s) = log_file_of fr s.
Proof. reflexivity. Qed.

(** Two descriptions of one state are brought to the same form.  The
    setters are never unfolded: a nest of them would be copied once for
    every field of the record. *)
Ltac same_state :=
  rewrite ?set_outside_record, ?set_codex_record, ?set_update_queue_record,
    ?record_record, ?set_outside_set_outside, ?set_codex_set_codex,
    ?set_outside_set_codex, ?set_update_queue_set_outside,
    ?set_update_queue_set_codex, ?log_file_of_record, ?log_file_of_set_outside,
    ?log_file_of_set_codex, ?outside_record, ?outside_set_outside,
    ?codex_record, ?codex_set_outside, ?codex_set_codex,
    ?history_record, ?history_set_outside, ?history_set_codex;
  unfold gave_up_effects, retry_effects, audit_effects, stored_effects,
    rejected_effects, parse_effects;
  rewrite ?set_outside_record, ?set_codex_record, ?record_record,
    ?log_file_of_record, ?log_file_of_set_outside, ?log_file_of_set_codex;
  rewrite <- ?List.app_assoc;
  cbn [app exn_str];
  try reflexivity.

Lemma record_nil s : record [] s = s.
Proof. destruct s; unfold record; simpl. by rewrite app_nil_r. Qed.

Lemma since_record es s : since s (record es s) = es.
Proof. unfold since, record; simpl. by rewrite drop_app_length. Qed.

Lemma since_history s s' es : history s' = history s ++ es -> since s s' = es.
Proof. intros E. unfold since. rewrite E. by rewrite drop_app_length. Qed.

(** *** Dictionaries *)

Lemma getitem_Some doc key v : doc !! key = Some v -> getitem doc key = Ok v.
Proof. intros E. unfold getitem. by rewrite E. Qed.

Lemma getitem_Ok doc key v : getitem doc key = Ok v -> doc !! key = Some v.
Proof. unfold getitem. destruct (doc !! key); congruence. Qed.

Lemma doc_if_truthy_Some doc key v :
  doc !! key = Some v -> doc_if_truthy (Some doc) = Some doc.
Proof.
  intros E. unfold doc_if_truthy. case_bool_decide as E0; [|done].
  subst doc. by rewrite lookup_empty in E.
Qed.

(** A document whose prompt can be built has the two fields that the rest
    of the analysis reads. *)
Lemma build_prompt_fields doc prompt :
  build_prompt doc = Ok prompt ->
  exists finish_reason prompt_completion,
    doc !! "finish_reason" = Some finish_reason /\
    doc !! "prompt_completion" = Some prompt_completion.
Proof.
  unfold build_prompt, getitem, mbind, result_mbind.
  destruct (doc !! "finish_reason") as [fr|]; [|done].
  destruct (doc !! "prompt_completion") as [pc|].
  - intros _. by exists fr, pc.
  - destruct (py_eq_str fr "function_call");
      destruct (doc !! "system_message"); try done;
      destruct (doc !! "ongoing_chat"); done.
Qed.

(** *** Running the monad, one step at a time *)

Lemma bind_run {A B} (m : M A) (f : A -> M B) s :
  (m ≫= f) s =
    match m s with
    | (Ok a, s') => f a s'
    | (Raise e, s') => (Raise e, s')
    end.
Proof. reflexivity. Qed.

Lemma ret_run {A} (a : A) s : (mret a : M A) s = (Ok a, s).
Proof. reflexivity. Qed.

Lemma try_except_run {A} (body : M A) handler s :
  try_except body handler s =
    match body s with
    | (Ok a, s') => (Ok a, s')
    | (Raise e, s') =>
        match handler e with
        | Some h => h s'
        | None => (Raise e, s')
        end
    end.
Proof. reflexivity. Qed.

Lemma info_run msg s : app_logger_info msg s = (Ok tt, record [Log INFO msg] s).
Proof. reflexivity. Qed.

Lemma error_run msg s : app_logger_error msg s = (Ok tt, record [Log ERROR msg] s).
Proof. reflexivity. Qed.

Lemma call_quick_ask_run prompt model_name s r w :
  quick_ask (outside s) prompt model_name = (r, w) ->
  call_quick_ask prompt model_name s =
    (r, record [QuickAsk prompt model_name] (set_outside w s)).
Proof. intros E. unfold call_quick_ask. by rewrite E. Qed.

Lemma call_parse_run msg s r w :
  parse (outside s) msg = (r, w) ->
  call_parse msg s = (r, record [Parse msg] (set_outside w s)).
Proof. intros E. unfold call_parse. by rewrite E. Qed.

Lemma update_accepted_run document_id new_fields s w :
  update_rejected (outside s) document_id new_fields = (None, w) ->
  add_or_update_fields_in_document document_id new_fields s =
    (Ok tt,
     record [StoreUpdate document_id new_fields]
       (set_codex (merge_fields document_id new_fields (codex s)) (set_outside w s))).
Proof. intros E. unfold add_or_update_fields_in_document. by rewrite E. Qed.

Lemma update_rejected_run document_id new_fields s e w :
  update_rejected (outside s) document_id new_fields = (Some e, w) ->
  add_or_update_fields_in_document document_id new_fields s =
    (Raise e, set_outside w s).
Proof. intros E. unfold add_or_update_fields_in_document. by rewrite E. Qed.

Lemma lift_run {A} (r : result A) s : lift r s = (r, s).
Proof. reflexivity. Qed.

Lemma self_run {A} (attr : state -> A) s : self attr s = (Ok (attr s), s).
Proof. reflexivity. Qed.

(** One step after another: the equations above are applied and the
    matches on known results are resolved, without unfolding anything
    else. *)
Ltac run :=
  repeat progress
    (rewrite ?bind_run, ?try_except_run, ?info_run, ?error_run, ?ret_run,
       ?lift_run, ?self_run;
     cbv beta iota).

(** *** The blocks of analyze_prompt_completions, one at a time *)

Lemma note_prompt_exception_run doc pc s :
  doc !! "prompt_completion" = Some pc ->
  note_prompt_exception doc s = (Ok tt, record (prompt_exception_note doc pc) s).
Proof.
  intros E. unfold note_prompt_exception, prompt_exception_note.
  destruct (truthy (prompt_exception_of doc)).
  - run. rewrite (getitem_Some _ _ _ E). by run.
  - run. by rewrite record_nil.
Qed.

(** Every way through the nested try blocks of lines 222-249. *)
Lemma secondary_analysis_response_cases (prompt_exception : pyval) (prompt : string) s :
  let r := secondary_analysis_response prompt_exception prompt s in
  match quick_ask (outside s) prompt (primary_model prompt_exception) with
  | (Ok text, w1) =>
      r = (Ok (Some text),
           record [QuickAsk prompt (primary_model prompt_exception)] (set_outside w1 s))
  | (Raise (ContextLengthExceededException m1), w1) =>
      match quick_ask w1 prompt fallback_model with
      | (Ok text, w2) =>
          r = (Ok (Some text),
               record (retry_effects prompt_exception prompt m1) (set_outside w2 s))
      | (Raise (ContextLengthExceededException m2), w2) =>
          r = (Ok None,
               record (gave_up_effects prompt_exception prompt m1 m2) (set_outside w2 s))
      | (Raise e, w2) =>
          r = (Raise e,
               record (retry_effects prompt_exception prompt m1) (set_outside w2 s))
      end
  | (Raise e, w1) =>
      r = (Raise e,
           record [QuickAsk prompt (primary_model prompt_exception)] (set_outside w1 s))
  end.
Proof.
  intros r. subst r. unfold secondary_analysis_response.
  run.
  destruct (quick_ask (outside s) prompt (primary_model prompt_exception))
    as [[text|e] w1] eqn:E1; rewrite (call_quick_ask_run _ _ _ _ _ E1); run;
    [done|].
  destruct e as [| |m1|]; try done.
  run.
  destruct (quick_ask w1 prompt fallback_model) as [[text|e] w2] eqn:E2;
    (erewrite call_quick_ask_run by exact E2); run.
  - f_equal. by same_state.
  - destruct e as [| |m2|]; run; f_equal; by same_state.
Qed.

Lemma log_analysis_run document_id doc fr pc response s :
  doc !! "finish_reason" = Some fr ->
  doc !! "prompt_completion" = Some pc ->
  log_analysis document_id doc response s =
    (Ok tt, record (audit_effects document_id fr pc response s) s).
Proof.
  intros Efr Epc. unfold log_analysis, append_to_file.
  run. rewrite (getitem_Some _ _ _ Efr). run.
  rewrite (getitem_Some _ _ _ Epc). run.
  unfold emit. run. f_equal. by same_state.
Qed.

Lemma process_response_none document_id doc response s :
  response_truthy response = false ->
  process_response document_id doc response s = (Ok tt, record [no_response_line] s).
Proof. intros E. unfold process_response. by rewrite E. Qed.

(** Every way through lines 270-301 for a response that is there. *)
Lemma process_response_cases document_id doc response s :
  response_truthy response = true ->
  let r := process_response document_id doc response s in
  match parse (outside s) (response_str response) with
  | (Raise e, w1) =>
      r = (Raise e, record (parse_effects doc response) (set_outside w1 s))
  | (Ok attrs, w1) =>
      match update_rejected w1 document_id (report_of attrs) with
      | (Some e, w2) =>
          r = (Ok tt,
               record (parse_effects doc response ++
                       rejected_effects document_id (report_of attrs) e)
                 (set_outside w2 s))
      | (None, w2) =>
          r = (Ok tt,
               record (parse_effects doc response ++
                       stored_effects document_id (report_of attrs))
                 (set_codex (merge_fields document_id (report_of attrs) (codex s))
                    (set_outside w2 s)))
      end
  end.
Proof.
  intros E r. subst r. unfold process_response. rewrite E. run.
  destruct (parse (outside s) (response_str response)) as [[attrs|e] w1] eqn:E1;
    (erewrite call_parse_run by exact E1); run; [|f_equal; by same_state].
  destruct (update_rejected w1 document_id (report_of attrs)) as [[e|] w2] eqn:E2.
  - (erewrite update_rejected_run by exact E2). run. f_equal. by same_state.
  - (erewrite update_accepted_run by exact E2). run. f_equal. by same_state.
Qed.

(** *** The analysis of a document that is found and well formed *)

Lemma analyze_found document_id doc prompt fr pc s :
  codex s !! document_id = Some doc ->
  build_prompt doc = Ok prompt ->
  doc !! "finish_reason" = Some fr ->
  doc !! "prompt_completion" = Some pc ->
  analyze_prompt_completions document_id s =
    match secondary_analysis_response (prompt_exception_of doc) prompt
            (record (prompt_exception_note doc pc) s) with
    | (Ok response, s2) =>
        process_response document_id doc response
          (record (audit_effects document_id fr pc response s2) s2)
    | (Raise e, s2) => (Raise e, s2)
    end.
Proof.
  intros Edoc Eprompt Efr Epc.
  unfold analyze_prompt_completions, get_document_by_id.
  run. rewrite Edoc, (doc_if_truthy_Some _ _ _ Epc).
  run. rewrite (note_prompt_exception_run _ _ _ Epc).
  run. rewrite Eprompt. run.
  destruct (secondary_analysis_response _ _ _) as [[response|e] s2]; [|done].
  run. by rewrite (log_analysis_run _ _ _ _ _ _ Efr Epc).
Qed.

(** *** What each block can and cannot do *)

Lemma model_calls_app es1 es2 : model_calls (es1 ++ es2) = model_calls es1 ++ model_calls es2.
Proof. apply omap_app. Qed.

Lemma file_appends_app es1 es2 :
  file_appends (es1 ++ es2) = file_appends es1 ++ file_appends es2.
Proof. apply omap_app. Qed.

Lemma store_updates_app es1 es2 :
  store_updates (es1 ++ es2) = store_updates es1 ++ store_updates es2.
Proof. apply omap_app. Qed.

Lemma parse_calls_app es1 es2 : parse_calls (es1 ++ es2) = parse_calls es1 ++ parse_calls es2.
Proof. apply omap_app. Qed.

Lemma log_lines_app lv es1 es2 :
  log_lines lv (es1 ++ es2) = log_lines lv es1 ++ log_lines lv es2.
Proof. apply omap_app. Qed.

Lemma ask_or_log_observations es :
  forallb ask_or_log es = true ->
  file_appends es = [] /\ store_updates es = [] /\ parse_calls es = [].
Proof.
  induction es as [|e es IH]; [done|].
  intros [He Hes]%andb_prop. destruct (IH Hes) as (IH1 & IH2 & IH3).
  change (e :: es) with ([e] ++ es).
  rewrite file_appends_app, store_updates_app, parse_calls_app, IH1, IH2, IH3.
  by destruct e.
Qed.

Lemma set_same s : set_codex (codex s) (set_outside (outside s) s) = s.
Proof. by destruct s. Qed.

(** The fallback chain begins by asking the primary model; after that it
    only asks and logs. *)
Lemma secondary_analysis_response_frame (prompt_exception : pyval) (prompt : string) s :
  exists w es,
    (secondary_analysis_response prompt_exception prompt s).2 =
      record (QuickAsk prompt (primary_model prompt_exception) :: es) (set_outside w s) /\
    forallb ask_or_log es = true.
Proof.
  pose proof (secondary_analysis_response_cases prompt_exception prompt s) as C.
  cbv zeta in C.
  destruct (quick_ask (outside s) prompt (primary_model prompt_exception))
    as [[text|e] w1].
  { rewrite C. by exists w1, []. }
  destruct e; try (rewrite C; by exists w1, []).
  destruct (quick_ask w1 prompt fallback_model) as [[text|e] w2].
  { rewrite C. by eexists w2, _. }
  destruct e; rewrite C; by eexists w2, _.
Qed.

(** Parsing and storing write no file, ask no model and update the store at
    most once. *)
Lemma process_response_frame document_id doc response s :
  exists c w es,
    (process_response document_id doc response s).2 =
      record es (set_codex c (set_outside w s)) /\
    file_appends es = [] /\
    model_calls es = [] /\
    length (store_updates es) <= 1 /\
    (store_updates es = [] -> c = codex s).
Proof.
  destruct (response_truthy response) eqn:E.
  - pose proof (process_response_cases document_id doc response s E) as C.
    cbv zeta in C.
    destruct (parse (outside s) (response_str response)) as [[attrs|e] w1].
    + destruct (update_rejected w1 document_id (report_of attrs)) as [[e|] w2];
        rewrite C.
      * exists (codex s), w2,
          (parse_effects doc response ++
           rejected_effects document_id (report_of attrs) e).
        split; [cbn [snd]; f_equal; by destruct s|].
        split_and!; try reflexivity; cbn; lia.
      * exists (merge_fields document_id (report_of attrs) (codex s)), w2,
          (parse_effects doc response ++
           stored_effects document_id (report_of attrs)).
        split; [reflexivity|].
        split_and!; try reflexivity. intros E2. discriminate E2.
    + rewrite C. exists (codex s), w1, (parse_effects doc response).
      split; [cbn [snd]; f_equal; by destruct s|].
      split_and!; try reflexivity; cbn; lia.
  - rewrite (process_response_none _ _ _ _ E).
    exists (codex s), (outside s), [no_response_line].
    rewrite set_same. split_and!; try reflexivity; cbn; lia.
Qed.

Lemma observe_note doc pc :
  file_appends (prompt_exception_note doc pc) = [] /\
  model_calls (prompt_exception_note doc pc) = [] /\
  store_updates (prompt_exception_note doc pc) = [] /\
  parse_calls (prompt_exception_note doc pc) = [] /\
  log_lines ERROR (prompt_exception_note doc pc) = [].
Proof. unfold prompt_exception_note. by destruct (truthy _). Qed.

Lemma since_evolved s es c w :
  since s (record es (set_codex c (set_outside w s))) = es.
Proof. by apply since_history. Qed.

Lemma since_asked s es w : since s (record es (set_outside w s)) = es.
Proof. by apply since_history. Qed.

(** The analysis when the fallback chain comes back without a response. *)
Lemma analyze_no_response document_id doc prompt fr pc w ces s :
  codex s !! document_id = Some doc ->
  build_prompt doc = Ok prompt ->
  doc !! "finish_reason" = Some fr ->
  doc !! "prompt_completion" = Some pc ->
  secondary_analysis_response (prompt_exception_of doc) prompt
      (record (prompt_exception_note doc pc) s) =
    (Ok None, record ces (set_outside w (record (prompt_exception_note doc pc) s))) ->
  analyze_prompt_completions document_id s =
    (Ok tt,
     record (prompt_exception_note doc pc ++ ces ++
             audit_effects document_id fr pc None s ++ [no_response_line])
       (set_outside w s)).
Proof.
  intros Edoc Eprompt Efr Epc Echain.
  rewrite (analyze_found _ _ _ _ _ _ Edoc Eprompt Efr Epc), Echain.
  rewrite process_response_none by done.
  f_equal. by same_state.
Qed.

(** The analysis when the fallback chain comes back with a response or
    without one: the state it ends in, whether or not the parser raises. *)
Lemma analyze_with_response document_id doc prompt fr pc response w ces s :
  codex s !! document_id = Some doc ->
  build_prompt doc = Ok prompt ->
  doc !! "finish_reason" = Some fr ->
  doc !! "prompt_completion" = Some pc ->
  secondary_analysis_response (prompt_exception_of doc) prompt
      (record (prompt_exception_note doc pc) s) =
    (Ok response, record ces (set_outside w (record (prompt_exception_note doc pc) s))) ->
  exists c w' es,
    (analyze_prompt_completions document_id s).2 =
      record (prompt_exception_note doc pc ++ ces ++
              audit_effects document_id fr pc response s ++ es)
        (set_codex c (set_outside w' s)) /\
    file_appends es = [] /\
    model_calls es = [] /\
    length (store_updates es) <= 1 /\
    (store_updates es = [] -> c = codex s).
Proof.
  intros Edoc Eprompt Efr Epc Echain.
  rewrite (analyze_found _ _ _ _ _ _ Edoc Eprompt Efr Epc), Echain.
  match goal with
  | |- context [process_response _ _ _ ?s2] =>
      destruct (process_response_frame document_id doc response s2)
        as (c & w' & es & -> & Hf & Hm & Hl & Hc)
  end.
  exists c, w', es. split; [by same_state|].
  split_and!; try done.
Qed.

(** *** The claims *)

(** C4: when the document id of a doc_save event is not in the store, the
    analysis logs one error and returns; it appends to no file, writes
    nothing to the store and asks no model. *)
Theorem C4_missing_document (document_id : string) s :
  codex s !! document_id = None ->
  let r := analyze_prompt_completions document_id s in
  r = (Ok tt,
       record [Log ERROR ("Document with ID " +:+ document_id +:+ " not found.")] s) /\
  file_appends (since s r.2) = [] /\
  store_updates (since s r.2) = [] /\
  model_calls (since s r.2) = [] /\
  codex r.2 = codex s.
Proof.
  intros E r.
  assert (r = (Ok tt,
       record [Log ERROR ("Document with ID " +:+ document_id +:+ " not found.")] s))
    as ->.
  { subst r. unfold analyze_prompt_completions, get_document_by_id.
    run. rewrite E. cbn [doc_if_truthy]. by run. }
  split; [done|]. cbn [snd]. by rewrite since_record.
Qed.

(** C1: the models are tried in a fixed order.  The first attempt goes to
    gpt-4-32k when prompt_exception is true and to gpt-4-0125-preview when
    it is false; an answer ends the chain; a size-limit failure is followed
    by exactly one attempt with gpt-4-1106-preview; a second size-limit
    failure leaves the response None, and the analysis returns after the
    "No response received" error without asking any model again. *)
Theorem C1_fallback_chain (document_id : string) doc (prompt : string) s :
  codex s !! document_id = Some doc ->
  build_prompt doc = Ok prompt ->
  let first :=
    if truthy (dict_get doc "prompt_exception" (PyBool true))
    then "gpt-4-32k" else "gpt-4-0125-preview" in
  let chain :=
    secondary_analysis_response (prompt_exception_of doc) prompt
      (note_prompt_exception doc s).2 in
  let r := analyze_prompt_completions document_id s in
  (forall text w1,
      quick_ask (outside s) prompt first = (Ok text, w1) ->
      chain.1 = Ok (Some text) /\
      model_calls (since s r.2) = [(prompt, first)]) /\
  (forall m1 w1,
      quick_ask (outside s) prompt first =
        (Raise (ContextLengthExceededException m1), w1) ->
      (forall text w2,
          quick_ask w1 prompt "gpt-4-1106-preview" = (Ok text, w2) ->
          chain.1 = Ok (Some text) /\
          model_calls (since s r.2) =
            [(prompt, first); (prompt, "gpt-4-1106-preview")]) /\
      (forall m2 w2,
          quick_ask w1 prompt "gpt-4-1106-preview" =
            (Raise (ContextLengthExceededException m2), w2) ->
          chain.1 = Ok None /\
          r.1 = Ok tt /\
          model_calls (since s r.2) =
            [(prompt, first); (prompt, "gpt-4-1106-preview")] /\
          last (since s r.2) = Some no_response_line)).
Proof.
  intros Edoc Eprompt first chain r.
  destruct (build_prompt_fields _ _ Eprompt) as (fr & pc & Efr & Epc).
  subst chain. rewrite (note_prompt_exception_run _ _ _ Epc). cbn [snd].
  pose proof (secondary_analysis_response_cases (prompt_exception_of doc) prompt
                (record (prompt_exception_note doc pc) s)) as C.
  cbv zeta in C. rewrite outside_record in C.
  change (primary_model (prompt_exception_of doc)) with first in C.
  change fallback_model with "gpt-4-1106-preview" in C.
  destruct (observe_note doc pc) as (_ & Hnote & _).
  split.
  - intros text w1 E1. rewrite E1 in C. split; [by rewrite C|].
    destruct (analyze_with_response _ _ _ _ _ _ _ _ _ Edoc Eprompt Efr Epc C)
      as (c & w' & es & Hr & _ & Hes & _).
    subst r. rewrite Hr, since_evolved, !model_calls_app, Hnote, Hes. done.
  - intros m1 w1 E1. rewrite E1 in C. split.
    + intros text w2 E2. rewrite E2 in C. split; [by rewrite C|].
      destruct (analyze_with_response _ _ _ _ _ _ _ _ _ Edoc Eprompt Efr Epc C)
        as (c & w' & es & Hr & _ & Hes & _).
      subst r. rewrite Hr, since_evolved, !model_calls_app, Hnote, Hes. done.
    + intros m2 w2 E2. rewrite E2 in C. split; [by rewrite C|].
      subst r.
      rewrite (analyze_no_response _ _ _ _ _ _ _ _ Edoc Eprompt Efr Epc C).
      cbn [fst snd]. rewrite since_asked. split; [done|]. split.
      * rewrite !model_calls_app, Hnote. done.
      * rewrite !app_assoc. apply last_snoc.
Qed.

(** C2 (as amended): when both model attempts fail with a size-limit error
    the analysis still appends one record to the audit file, with the
    evaluation rendered as None, and logs two errors, one for the second
    failure and one for the missing response; nothing is parsed and nothing
    is written to the store. *)
Theorem C2_size_limit_twice (document_id : string) doc (prompt : string)
    (fr pc : pyval) (m1 m2 : string) (w1 w2 : world) s :
  codex s !! document_id = Some doc ->
  build_prompt doc = Ok prompt ->
  doc !! "finish_reason" = Some fr ->
  doc !! "prompt_completion" = Some pc ->
  quick_ask (outside s) prompt (primary_model (prompt_exception_of doc)) =
    (Raise (ContextLengthExceededException m1), w1) ->
  quick_ask w1 prompt fallback_model =
    (Raise (ContextLengthExceededException m2), w2) ->
  let r := analyze_prompt_completions document_id s in
  r.1 = Ok tt /\
  file_appends (since s r.2) =
    [(log_file_of fr s, log_content_of document_id pc None)] /\
  log_lines ERROR (since s r.2) =
    ["Failed again with model gpt-4-1106-preview: " +:+ m2;
     "No response received from secondary analysis."] /\
  parse_calls (since s r.2) = [] /\
  store_updates (since s r.2) = [] /\
  codex r.2 = codex s.
Proof.
  intros Edoc Eprompt Efr Epc E1 E2 r.
  pose proof (secondary_analysis_response_cases (prompt_exception_of doc) prompt
                (record (prompt_exception_note doc pc) s)) as C.
  cbv zeta in C. rewrite outside_record, E1, E2 in C.
  subst r. rewrite (analyze_no_response _ _ _ _ _ _ _ _ Edoc Eprompt Efr Epc C).
  cbn [fst snd]. rewrite since_asked.
  destruct (observe_note doc pc) as (Hf & _ & Hs & Hp & Hl).
  rewrite !file_appends_app, !log_lines_app, !parse_calls_app, !store_updates_app,
    Hf, Hs, Hp, Hl.
  split_and!; reflexivity.
Qed.

(** C9: when the fallback chain leaves the response None, the analysis
    writes the audit record, logs the one error "No response received" and
    returns; it does not parse and does not write to the store, whose
    content, the work item included, is what it was. *)
Theorem C9_no_response_no_write (document_id : string) doc (prompt : string)
    (s2 : state) s :
  codex s !! document_id = Some doc ->
  build_prompt doc = Ok prompt ->
  secondary_analysis_response (prompt_exception_of doc) prompt
      (note_prompt_exception doc s).2 = (Ok None, s2) ->
  let r := analyze_prompt_completions document_id s in
  (exists fr pc,
      doc !! "finish_reason" = Some fr /\
      doc !! "prompt_completion" = Some pc /\
      r = (Ok tt,
           record (audit_effects document_id fr pc None s ++ [no_response_line]) s2)) /\
  parse_calls (since s r.2) = [] /\
  store_updates (since s r.2) = [] /\
  codex r.2 = codex s /\
  codex r.2 !! document_id = Some doc.
Proof.
  intros Edoc Eprompt Echain r.
  destruct (build_prompt_fields _ _ Eprompt) as (fr & pc & Efr & Epc).
  rewrite (note_prompt_exception_run _ _ _ Epc) in Echain. cbn [snd] in Echain.
  pose proof (secondary_analysis_response_cases (prompt_exception_of doc) prompt
                (record (prompt_exception_note doc pc) s)) as C.
  cbv zeta in C. rewrite outside_record, Echain in C.
  destruct (quick_ask (outside s) prompt (primary_model (prompt_exception_of doc)))
    as [[text|e] w1]; [done|].
  destruct e as [| |m1|]; try done.
  destruct (quick_ask w1 prompt fallback_model) as [[text|e] w2]; [done|].
  destruct e as [| |m2|]; try done.
  injection C as ->.
  pose proof (analyze_no_response _ _ _ _ _ _ _ _ Edoc Eprompt Efr Epc Echain) as R.
  subst r. rewrite R. cbn [fst snd].
  split.
  { exists fr, pc. split_and!; [done..|]. f_equal. by same_state. }
  rewrite since_asked.
  destruct (observe_note doc pc) as (_ & _ & Hs & Hp & _).
  rewrite !parse_calls_app, !store_updates_app, Hs, Hp.
  split_and!; try reflexivity. exact Edoc.
Qed.

Lemma py_eq_str_false v (s0 : string) : v <> PyStr s0 -> py_eq_str v s0 = false.
Proof.
  intros Hne. destruct v as [|b|s1|t x]; try reflexivity.
  cbn [py_eq_str]. apply String.eqb_neq. congruence.
Qed.

Lemma build_prompt_function_call doc sm oc pc :
  doc !! "finish_reason" = Some (PyStr "function_call") ->
  doc !! "system_message" = Some sm ->
  doc !! "ongoing_chat" = Some oc ->
  doc !! "prompt_completion" = Some pc ->
  build_prompt doc =
    Ok (make_prompt_for_function_call_analysis sm oc
          (dict_get doc "function_name" (PyStr "Unknown function name"))
          (dict_get doc "function_arguments" (PyStr "Unknown arguments"))
          pc).
Proof.
  intros Efr Esm Eoc Epc. unfold build_prompt.
  rewrite (getitem_Some _ _ _ Efr), (getitem_Some _ _ _ Esm),
    (getitem_Some _ _ _ Eoc), (getitem_Some _ _ _ Epc).
  reflexivity.
Qed.

Lemma build_prompt_general doc fr sm oc pc rm :
  doc !! "finish_reason" = Some fr ->
  fr <> PyStr "function_call" ->
  doc !! "system_message" = Some sm ->
  doc !! "ongoing_chat" = Some oc ->
  doc !! "prompt_completion" = Some pc ->
  doc !! "response_msg" = Some rm ->
  build_prompt doc = Ok (make_prompt_for_secondary_analysis sm oc pc rm).
Proof.
  intros Efr Hfr Esm Eoc Epc Erm. unfold build_prompt.
  rewrite (getitem_Some _ _ _ Efr), (getitem_Some _ _ _ Esm),
    (getitem_Some _ _ _ Eoc), (getitem_Some _ _ _ Epc), (getitem_Some _ _ _ Erm).
  cbn [mbind result_mbind]. by rewrite (py_eq_str_false _ _ Hfr).
Qed.

(** C7: the template is chosen by finish_reason alone.  A work item whose
    finish_reason is function_call gets the function-call template, filled
    with its function name and arguments, which therefore appear in the
    prompt; any other work item gets the general template, filled with its
    response message, which appears in the prompt instead. *)
Theorem C7_template_by_finish_reason doc (fr sm oc pc : pyval) :
  doc !! "finish_reason" = Some fr ->
  doc !! "system_message" = Some sm ->
  doc !! "ongoing_chat" = Some oc ->
  doc !! "prompt_completion" = Some pc ->
  function_call_template_shows_inputs ->
  secondary_template_shows_response ->
  (fr = PyStr "function_call" ->
   forall fn fa,
     doc !! "function_name" = Some fn ->
     doc !! "function_arguments" = Some fa ->
     let prompt := make_prompt_for_function_call_analysis sm oc fn fa pc in
     build_prompt doc = Ok prompt /\
     occurs_in (py_str fn) prompt /\
     occurs_in (py_str fa) prompt) /\
  (fr <> PyStr "function_call" ->
   forall rm,
     doc !! "response_msg" = Some rm ->
     let prompt := make_prompt_for_secondary_analysis sm oc pc rm in
     build_prompt doc = Ok prompt /\
     occurs_in (py_str rm) prompt).
Proof.
  intros Efr Esm Eoc Epc Hcall Hgeneral. split.
  - intros -> fn fa Efn Efa prompt. split; [|apply Hcall].
    rewrite (build_prompt_function_call _ _ _ _ Efr Esm Eoc Epc).
    unfold dict_get. by rewrite Efn, Efa.
  - intros Hfr rm Erm prompt. split; [|apply Hgeneral].
    exact (build_prompt_general _ _ _ _ _ _ Efr Hfr Esm Eoc Epc Erm).
Qed.

(** C10: a function-call work item without a function name or without
    function arguments is analysed all the same.  The prompt is built, with
    "Unknown function name" or "Unknown arguments" where the field is
    missing, and it is this prompt that the analysis goes on to send to the
    primary model. *)
Theorem C10_placeholders (document_id : string) doc (sm oc pc : pyval) s :
  doc !! "finish_reason" = Some (PyStr "function_call") ->
  doc !! "system_message" = Some sm ->
  doc !! "ongoing_chat" = Some oc ->
  doc !! "prompt_completion" = Some pc ->
  (doc !! "function_name" = None ->
   doc !! "function_arguments" = None ->
   build_prompt doc =
     Ok (make_prompt_for_function_call_analysis sm oc
           (PyStr "Unknown function name") (PyStr "Unknown arguments") pc)) /\
  (doc !! "function_name" = None ->
   forall fa,
     doc !! "function_arguments" = Some fa ->
     build_prompt doc =
       Ok (make_prompt_for_function_call_analysis sm oc
             (PyStr "Unknown function name") fa pc)) /\
  (doc !! "function_arguments" = None ->
   forall fn,
     doc !! "function_name" = Some fn ->
     build_prompt doc =
       Ok (make_prompt_for_function_call_analysis sm oc
             fn (PyStr "Unknown arguments") pc)) /\
  (codex s !! document_id = Some doc ->
   exists prompt rest,
     build_prompt doc = Ok prompt /\
     since s (analyze_prompt_completions document_id s).2 =
       prompt_exception_note doc pc ++
       QuickAsk prompt (primary_model (prompt_exception_of doc)) :: rest).
Proof.
  intros Efr Esm Eoc Epc.
  pose proof (build_prompt_function_call _ _ _ _ Efr Esm Eoc Epc) as B.
  unfold dict_get in B.
  split_and!.
  - intros Efn Efa. by rewrite Efn, Efa in B.
  - intros Efn fa Efa. by rewrite Efn, Efa in B.
  - intros Efa fn Efn. by rewrite Efn, Efa in B.
  - intros Edoc.
    match type of B with _ = Ok ?p => set (prompt := p) in * end.
    exists prompt.
    destruct (secondary_analysis_response_frame (prompt_exception_of doc) prompt
                (record (prompt_exception_note doc pc) s)) as (w & ces & Hs2 & _).
    destruct (secondary_analysis_response (prompt_exception_of doc) prompt
                (record (prompt_exception_note doc pc) s))
      as [[response|e] s2] eqn:Ec; cbn [snd] in Hs2; subst s2.
    + destruct (analyze_with_response _ _ _ _ pc response w _ s Edoc B Efr Epc Ec)
        as (c & w' & es & Hr & _).
      eexists. split; [exact B|].
      rewrite Hr, since_evolved. reflexivity.
    + eexists. split; [exact B|].
      rewrite (analyze_found _ _ _ _ _ _ Edoc B Efr Epc), Ec. cbn [snd].
      apply since_history. by same_state.
Qed.

(** *** The report and the store *)

Lemma is_not_None_true v : is_not_None v = true <-> v <> PyNone.
Proof. by destruct v. Qed.

Lemma report_of_lookup (attrs : gmap string pyval) (k : string) (v : pyval) :
  report_of attrs !! k = Some v <-> attrs !! k = Some v /\ v <> PyNone.
Proof.
  unfold report_of. rewrite map_lookup_filter_Some. cbn [snd].
  by rewrite is_not_None_true.
Qed.

Lemma merge_fields_lookup (document_id : string) (new_fields d : gmap string pyval)
    (c : gmap string (gmap string pyval)) :
  c !! document_id = Some d ->
  merge_fields document_id new_fields c !! document_id = Some (new_fields ∪ d).
Proof. intros E. unfold merge_fields. rewrite E. apply lookup_insert_eq. Qed.

Lemma merge_fields_other (document_id other : string) (new_fields : gmap string pyval)
    (c : gmap string (gmap string pyval)) :
  other <> document_id ->
  merge_fields document_id new_fields c !! other = c !! other.
Proof.
  intros Hne. unfold merge_fields.
  destruct (c !! document_id); [|done]. by rewrite lookup_insert_ne.
Qed.

Lemma merge_fields_idemp (document_id : string) (new_fields : gmap string pyval)
    (c : gmap string (gmap string pyval)) :
  merge_fields document_id new_fields (merge_fields document_id new_fields c) =
  merge_fields document_id new_fields c.
Proof.
  destruct (c !! document_id) as [d|] eqn:E.
  - unfold merge_fields at 1. rewrite (merge_fields_lookup _ _ _ _ E).
    unfold merge_fields. rewrite E.
    by rewrite insert_insert_eq, (assoc_L (∪)), (idemp_L (∪)).
  - unfold merge_fields. by rewrite !E.
Qed.

(** C6: the store update merges the non-None fields of the report and
    nothing else.  A field that the parser left None is not in the merged
    report; a field of the stored work item that the merged report does not
    name keeps its value, and the other work items are untouched; merging
    the same report a second time changes nothing.  This is the update that
    the analysis performs after a successful parse. *)
Theorem C6_merge_only_present_fields (document_id : string)
    (attrs d : gmap string pyval) (c : gmap string (gmap string pyval)) :
  c !! document_id = Some d ->
  let report := report_of attrs in
  let c' := merge_fields document_id report c in
  (forall k, attrs !! k = Some PyNone -> report !! k = None) /\
  (forall k v, report !! k = Some v <-> attrs !! k = Some v /\ v <> PyNone) /\
  (exists d',
      c' !! document_id = Some d' /\
      (forall k v, report !! k = Some v -> d' !! k = Some v) /\
      (forall k, report !! k = None -> d' !! k = d !! k)) /\
  (forall other, other <> document_id -> c' !! other = c !! other) /\
  merge_fields document_id report c' = c' /\
  (forall doc response w1 w2 s,
      codex s = c ->
      response_truthy response = true ->
      parse (outside s) (response_str response) = (Ok attrs, w1) ->
      update_rejected w1 document_id report = (None, w2) ->
      let r := process_response document_id doc response s in
      r.1 = Ok tt /\
      store_updates (since s r.2) = [(document_id, report)] /\
      codex r.2 = c').
Proof.
  intros Ed report c'. split_and!.
  - intros k Ek. destruct (report !! k) as [v|] eqn:E; [|done].
    apply report_of_lookup in E as [E Hv]. congruence.
  - apply report_of_lookup.
  - exists (report ∪ d). split; [by apply merge_fields_lookup|]. split.
    + intros k v E. by apply lookup_union_Some_l.
    + intros k E. by apply lookup_union_r.
  - intros other Hne. by apply merge_fields_other.
  - apply merge_fields_idemp.
  - intros doc response w1 w2 s Ec Et Ep Eu r.
    pose proof (process_response_cases document_id doc response s Et) as C.
    cbv zeta in C. rewrite Ep in C. fold report in C. rewrite Eu in C.
    subst r. rewrite C. cbn [fst snd]. rewrite since_evolved, Ec.
    split_and!; reflexivity.
Qed.

(** *** The queue loop *)

Lemma get_nowait_item item rest s :
  update_queue s = item :: rest ->
  get_nowait s = (Ok item, set_update_queue rest s).
Proof. intros E. unfold get_nowait. by rewrite E. Qed.

Lemma get_nowait_empty s :
  update_queue s = [] -> get_nowait s = (Raise QueueEmpty, s).
Proof. intros E. unfold get_nowait. by rewrite E. Qed.

(** An empty queue: the loop sleeps and turns again. *)
Lemma iteration_empty s :
  update_queue s = [] ->
  process_queue_iteration s = (Ok tt, record [Sleep] s).
Proof.
  intros E. unfold process_queue_iteration. run.
  rewrite (get_nowait_empty _ E). by run.
Qed.

(** An event of a kind the loop does not know is taken off the queue, and
    that is all. *)
Lemma iteration_unknown_kind (update_type prompt_data : string) rest s :
  update_queue s = (update_type, prompt_data) :: rest ->
  update_type <> "doc_save" ->
  update_type <> "pop_context_triggered" ->
  process_queue_iteration s = (Ok tt, set_update_queue rest s).
Proof.
  intros E H1 H2. unfold process_queue_iteration. run.
  rewrite (get_nowait_item _ _ _ E). run.
  apply String.eqb_neq in H1, H2. rewrite H1, H2. by run.
Qed.

Lemma iteration_pop_context (prompt_data : string) rest s :
  update_queue s = ("pop_context_triggered", prompt_data) :: rest ->
  process_queue_iteration s =
    (Ok tt,
     record [Print "pop_context_triggered received in Monitor"]
       (set_update_queue rest s)).
Proof.
  intros E. unfold process_queue_iteration. run.
  rewrite (get_nowait_item _ _ _ E). by run.
Qed.

(** A doc_save event: the analysis runs, and what it raises leaves the
    try statement unless it is [queue.Empty]. *)
Lemma iteration_doc_save (document_id : string) rest s :
  update_queue s = ("doc_save", document_id) :: rest ->
  process_queue_iteration s =
    match
      analyze_prompt_completions document_id
        (record [Print "Processing prompt completion from queue.";
                 Log INFO ("Dequeued document ID " +:+ document_id +:+ " to monitor")]
           (set_update_queue rest s))
    with
    | (Ok a, s') => (Ok a, s')
    | (Raise QueueEmpty, s') => (Ok tt, record [Sleep] s')
    | (Raise e, s') => (Raise e, s')
    end.
Proof.
  intros E. unfold process_queue_iteration. run.
  rewrite (get_nowait_item _ _ _ E). run.
  change (String.eqb "doc_save" "doc_save") with true. unfold print, emit. run.
  rewrite record_record. cbn [app].
  destruct (analyze_prompt_completions _ _) as [[[]|e] s']; [done|].
  by destruct e.
Qed.

Lemma process_queue_turn fuel s s' :
  keep_running s = true ->
  process_queue_iteration s = (Ok tt, s') ->
  process_queue (S fuel) s = process_queue fuel s'.
Proof. intros Hk Hi. cbn [process_queue]. by rewrite Hk, Hi. Qed.

Lemma process_queue_crash fuel e s s' :
  keep_running s = true ->
  process_queue_iteration s = (Raise e, s') ->
  process_queue (S fuel) s = (Crashed e, s').
Proof. intros Hk Hi. cbn [process_queue]. by rewrite Hk, Hi. Qed.

Lemma process_queue_stopped fuel s :
  keep_running s = false -> process_queue (S fuel) s = (Stopped, s).
Proof. intros Hk. cbn [process_queue]. by rewrite Hk. Qed.

(** A run of events of unknown kinds costs one turn each and leaves the
    agent as it was, with the rest of the queue still to process. *)
Lemma process_queue_skips (unknown rest : list (string * string)) fuel s :
  Forall unknown_kind unknown ->
  update_queue s = unknown ++ rest ->
  keep_running s = true ->
  process_queue (length unknown + fuel) s = process_queue fuel (set_update_queue rest s).
Proof.
  intros Hu. revert s.
  induction Hu as [|[kind data] unknown [H1 H2] _ IH]; intros s Hq Hk.
  - cbn [length Nat.add]. f_equal. destruct s. cbn in Hq. by subst.
  - cbn [length Nat.add].
    rewrite (process_queue_turn _ _ _ Hk
               (iteration_unknown_kind _ _ _ _ Hq H1 H2)).
    by rewrite IH.
Qed.

(** C8 (as amended): an event whose kind is neither doc_save nor
    pop_context_triggered is taken off the queue and ignored.  Nothing is
    logged, no warning either.  The loop does not crash: it turns again
    with the rest of the queue, however many such events come in a row. *)
Theorem C8_unknown_kind_ignored (update_type prompt_data : string)
    (rest : list (string * string)) s :
  update_queue s = (update_type, prompt_data) :: rest ->
  update_type <> "doc_save" ->
  update_type <> "pop_context_triggered" ->
  let r := process_queue_iteration s in
  r = (Ok tt, set_update_queue rest s) /\
  since s r.2 = [] /\
  (keep_running s = true ->
   forall fuel, process_queue (S fuel) s = process_queue fuel (set_update_queue rest s)) /\
  (keep_running s = true ->
   forall unknown later fuel,
     Forall unknown_kind unknown ->
     rest = unknown ++ later ->
     process_queue (S (length unknown) + fuel) s =
       process_queue fuel (set_update_queue later s)).
Proof.
  intros Hq H1 H2 r.
  pose proof (iteration_unknown_kind _ _ _ _ Hq H1 H2) as Hi.
  subst r. rewrite Hi. split_and!.
  - done.
  - cbn [snd]. apply since_history.
    rewrite history_set_update_queue. by rewrite app_nil_r.
  - intros Hk fuel. by apply process_queue_turn.
  - intros Hk unknown later fuel Hu ->.
    apply (process_queue_skips ((update_type, prompt_data) :: unknown) later fuel s);
      [|done..].
    by constructor.
Qed.

(** *** Failures that the analysis does not handle *)

(** A failure of the first model call that is not a size-limit failure
    leaves the analysis at once: nothing is logged about it, no file is
    written. *)
Lemma analyze_model_failure (document_id : string) doc (prompt msg : string)
    (w1 : world) s :
  codex s !! document_id = Some doc ->
  build_prompt doc = Ok prompt ->
  quick_ask (outside s) prompt (primary_model (prompt_exception_of doc)) =
    (Raise (OtherException msg), w1) ->
  exists pc,
    doc !! "prompt_completion" = Some pc /\
    analyze_prompt_completions document_id s =
      (Raise (OtherException msg),
       record (prompt_exception_note doc pc ++
               [QuickAsk prompt (primary_model (prompt_exception_of doc))])
         (set_outside w1 s)).
Proof.
  intros Edoc Eprompt E1.
  destruct (build_prompt_fields _ _ Eprompt) as (fr & pc & Efr & Epc).
  exists pc. split; [done|].
  rewrite (analyze_found _ _ _ _ _ _ Edoc Eprompt Efr Epc).
  pose proof (secondary_analysis_response_cases (prompt_exception_of doc) prompt
                (record (prompt_exception_note doc pc) s)) as C.
  cbv zeta in C. rewrite outside_record, E1 in C. rewrite C.
  f_equal. by same_state.
Qed.

(** A failure of the parser leaves the analysis too, after the audit
    record has been written. *)
Lemma process_response_parse_failure (document_id : string) doc
    (response : option string) (e : exn) (w1 : world) s :
  response_truthy response = true ->
  parse (outside s) (response_str response) = (Raise e, w1) ->
  process_response document_id doc response s =
    (Raise e, record (parse_effects doc response) (set_outside w1 s)).
Proof.
  intros Et Ep.
  pose proof (process_response_cases document_id doc response s Et) as C.
  cbv zeta in C. by rewrite Ep in C.
Qed.

(** What leaves the analysis of a doc_save event ends the loop. *)
Lemma process_queue_killed (document_id msg : string) rest fuel s s' :
  keep_running s = true ->
  update_queue s = ("doc_save", document_id) :: rest ->
  analyze_prompt_completions document_id
    (record [Print "Processing prompt completion from queue.";
             Log INFO ("Dequeued document ID " +:+ document_id +:+ " to monitor")]
       (set_update_queue rest s)) = (Raise (OtherException msg), s') ->
  process_queue (S fuel) s = (Crashed (OtherException msg), s').
Proof.
  intros Hk Hq Ha. apply process_queue_crash; [done|].
  by rewrite (iteration_doc_save _ _ _ Hq), Ha.
Qed.

(** *** The audit record of an analysis that is not cut short *)

(** Whenever the fallback chain returns, with a response or with None, the
    analysis appends exactly one record, to the file that goes with
    finish_reason, and updates the store at most once. *)
Lemma analyze_appends_once (document_id : string) doc (prompt : string)
    (fr pc : pyval) (response : option string) (s2 : state) s :
  codex s !! document_id = Some doc ->
  build_prompt doc = Ok prompt ->
  doc !! "finish_reason" = Some fr ->
  doc !! "prompt_completion" = Some pc ->
  secondary_analysis_response (prompt_exception_of doc) prompt
      (note_prompt_exception doc s).2 = (Ok response, s2) ->
  let r := analyze_prompt_completions document_id s in
  file_appends (since s r.2) =
    [(log_file_of fr s, log_content_of document_id pc response)] /\
  length (store_updates (since s r.2)) <= 1.
Proof.
  intros Edoc Eprompt Efr Epc Echain r.
  rewrite (note_prompt_exception_run _ _ _ Epc) in Echain. cbn [snd] in Echain.
  destruct (secondary_analysis_response_frame (prompt_exception_of doc) prompt
              (record (prompt_exception_note doc pc) s)) as (w & ces & Hs2 & Hces).
  rewrite Echain in Hs2. cbn [snd] in Hs2. subst s2.
  destruct (analyze_with_response _ _ _ _ _ _ _ _ _ Edoc Eprompt Efr Epc Echain)
    as (c & w' & es & Hr & Hf & _ & Hl & _).
  subst r. rewrite Hr, since_evolved.
  destruct (observe_note doc pc) as (Hnf & _ & Hns & _).
  destruct (ask_or_log_observations
              (QuickAsk prompt (primary_model (prompt_exception_of doc)) :: ces))
    as (Hcf & Hcs & _); [done|].
  rewrite !file_appends_app, !store_updates_app, Hnf, Hns, Hcf, Hcs, Hf.
  split; [reflexivity|]. cbn [app audit_effects store_updates omap]. exact Hl.
Qed.

(** *** Every way through the analysis *)

Lemma build_prompt_raises doc e :
  build_prompt doc = Raise e -> exists key, e = KeyError key /\ doc !! key = None.
Proof.
  unfold build_prompt, getitem, mbind, result_mbind, mret, result_mret.
  destruct (doc !! "finish_reason") as [fr|] eqn:Efr; [|intros [= <-]; eauto].
  destruct (py_eq_str fr "function_call");
    (destruct (doc !! "system_message") eqn:Esm; [|intros [= <-]; eauto]);
    (destruct (doc !! "ongoing_chat") eqn:Eoc; [|intros [= <-]; eauto]);
    (destruct (doc !! "prompt_completion") eqn:Epc; [|intros [= <-]; eauto]);
    try done.
  destruct (doc !! "response_msg") eqn:Erm; [done|intros [= <-]; eauto].
Qed.

Lemma analyze_not_found (document_id : string) s :
  doc_if_truthy (codex s !! document_id) = None ->
  analyze_prompt_completions document_id s =
    (Ok tt,
     record [Log ERROR ("Document with ID " +:+ document_id +:+ " not found.")] s).
Proof.
  intros E. unfold analyze_prompt_completions, get_document_by_id.
  run. rewrite E. by run.
Qed.

(** A work item without the fields that the prompt needs: the analysis
    raises the KeyError of the first missing field that it reads. *)
Lemma analyze_unbuildable (document_id : string) doc (e : exn) s :
  doc_if_truthy (codex s !! document_id) = Some doc ->
  build_prompt doc = Raise e ->
  exists key es,
    doc !! key = None /\
    analyze_prompt_completions document_id s = (Raise (KeyError key), record es s) /\
    forallb ask_or_log es = true /\
    model_calls es = [].
Proof.
  intros Edoc Eprompt.
  destruct (build_prompt_raises _ _ Eprompt) as (key & -> & Ekey).
  unfold analyze_prompt_completions, get_document_by_id.
  run. rewrite Edoc. run.
  destruct (doc !! "prompt_completion") as [pc|] eqn:Epc.
  - rewrite (note_prompt_exception_run _ _ _ Epc). run. rewrite Eprompt. run.
    exists key, (prompt_exception_note doc pc). split_and!; try done.
    + unfold prompt_exception_note. by destruct (truthy _).
    + by destruct (observe_note doc pc) as (_ & ? & _).
  - unfold note_prompt_exception.
    destruct (truthy (prompt_exception_of doc)).
    + run. unfold getitem. rewrite Epc. run.
      exists "prompt_completion", []. by rewrite record_nil.
    + run. rewrite Eprompt. run. exists key, []. by rewrite record_nil.
Qed.

Lemma doc_if_truthy_found (o : option (gmap string pyval)) doc :
  doc_if_truthy o = Some doc -> o = Some doc.
Proof.
  destruct o as [d|]; [|done]. cbn [doc_if_truthy].
  by case_bool_decide; intros [= ->].
Qed.

Lemma secondary_analysis_response_reach (prompt_exception : pyval) (prompt : string) s :
  exists w es,
    (secondary_analysis_response prompt_exception prompt s).2 =
      record es (set_outside w s) /\
    forallb ask_or_log es = true /\
    length (model_calls es) <= 2.
Proof.
  pose proof (secondary_analysis_response_cases prompt_exception prompt s) as C.
  cbv zeta in C.
  destruct (quick_ask (outside s) prompt (primary_model prompt_exception))
    as [[text|e] w1].
  { rewrite C. eexists w1, _. split; [reflexivity|]. split; [done|]. cbn. lia. }
  destruct e as [| |m1|];
    try (rewrite C; eexists w1, _; split; [reflexivity|]; split; [done|]; cbn; lia).
  destruct (quick_ask w1 prompt fallback_model) as [[text|e] w2].
  { rewrite C. eexists w2, _. split; [reflexivity|]. split; [done|]. cbn. lia. }
  destruct e; rewrite C; eexists w2, _; (split; [reflexivity|]);
    (split; [done|]); cbn; lia.
Qed.

Lemma process_response_reach (document_id : string) doc (response : option string) s :
  exists c w es,
    (process_response document_id doc response s).2 =
      record es (set_codex c (set_outside w s)) /\
    file_appends es = [] /\
    model_calls es = [] /\
    length (parse_calls es) <= 1 /\
    (store_updates es = [] /\ c = codex s \/
     exists attrs,
       store_updates es = [(document_id, report_of attrs)] /\
       c = merge_fields document_id (report_of attrs) (codex s)).
Proof.
  destruct (response_truthy response) eqn:E.
  - pose proof (process_response_cases document_id doc response s E) as C.
    cbv zeta in C.
    destruct (parse (outside s) (response_str response)) as [[attrs|e] w1].
    + destruct (update_rejected w1 document_id (report_of attrs)) as [[e|] w2];
        rewrite C.
      * exists (codex s), w2,
          (parse_effects doc response ++
           rejected_effects document_id (report_of attrs) e).
        split; [cbn [snd]; f_equal; by destruct s|].
        split_and!; try reflexivity; try (cbn; lia); by left.
      * exists (merge_fields document_id (report_of attrs) (codex s)), w2,
          (parse_effects doc response ++
           stored_effects document_id (report_of attrs)).
        split; [reflexivity|].
        split_and!; try reflexivity; try (cbn; lia); right; by exists attrs.
    + rewrite C. exists (codex s), w1, (parse_effects doc response).
      split; [cbn [snd]; f_equal; by destruct s|].
      split_and!; try reflexivity; try (cbn; lia); by left.
  - rewrite (process_response_none _ _ _ _ E).
    exists (codex s), (outside s), [no_response_line].
    rewrite set_same. split_and!; try reflexivity; try (cbn; lia); by left.
Qed.

Lemma one_analysis_quiet (document_id : string) s es :
  forallb ask_or_log es = true ->
  length (model_calls es) <= 2 ->
  one_analysis document_id s (codex s) es.
Proof.
  intros Hq Hm. destruct (ask_or_log_observations _ Hq) as (Hf & Hs & Hp).
  unfold one_analysis. rewrite Hf, Hs, Hp. cbn [length].
  split_and!; [lia | done | lia | by intros ? ? [] | by left].
Qed.

(** Whatever the document and whatever the collaborators do, one analysis
    leaves the queue, the running flag and the file names alone and stays
    within [one_analysis]. *)
Lemma analyze_reach (document_id : string) s :
  exists c w es,
    (analyze_prompt_completions document_id s).2 =
      record es (set_codex c (set_outside w s)) /\
    one_analysis document_id s c es.
Proof.
  destruct (doc_if_truthy (codex s !! document_id)) as [doc|] eqn:Edoc.
  2:{ rewrite (analyze_not_found _ _ Edoc).
      eexists (codex s), (outside s), _. rewrite set_same.
      split; [reflexivity|]. by apply one_analysis_quiet; [|cbn; lia]. }
  destruct (build_prompt doc) as [prompt|e] eqn:Eprompt.
  2:{ destruct (analyze_unbuildable _ _ _ _ Edoc Eprompt)
        as (key & es & _ & -> & Hq & Hm).
      exists (codex s), (outside s), es. rewrite set_same.
      split; [reflexivity|]. apply one_analysis_quiet; [done|]. rewrite Hm. cbn. lia. }
  apply doc_if_truthy_found in Edoc.
  destruct (build_prompt_fields _ _ Eprompt) as (fr & pc & Efr & Epc).
  destruct (secondary_analysis_response_reach (prompt_exception_of doc) prompt
              (record (prompt_exception_note doc pc) s)) as (w & ces & Hs2 & Hq & Hm).
  destruct (observe_note doc pc) as (Hnf & Hnm & Hns & Hnp & _).
  destruct (ask_or_log_observations _ Hq) as (Hcf & Hcs & Hcp).
  destruct (secondary_analysis_response (prompt_exception_of doc) prompt
              (record (prompt_exception_note doc pc) s))
    as [[response|e] s2] eqn:Ec; cbn [snd] in Hs2; subst s2.
  - rewrite (analyze_found _ _ _ _ _ _ Edoc Eprompt Efr Epc), Ec.
    match goal with
    | |- context [process_response _ _ _ ?s2] =>
        destruct (process_response_reach document_id doc response s2)
          as (c & w' & es & -> & Hf & Hmc & Hp & Hstore)
    end.
    exists c, w',
      (prompt_exception_note doc pc ++ ces ++
       audit_effects document_id fr pc response s ++ es).
    split; [by same_state|].
    unfold one_analysis.
    rewrite !file_appends_app, !model_calls_app, !parse_calls_app, !store_updates_app,
      Hnf, Hnm, Hns, Hnp, Hcf, Hcs, Hcp, Hf, Hmc.
    cbn [app]. split_and!.
    + cbn. lia.
    + rewrite app_nil_r. exact Hm.
    + exact Hp.
    + intros f content [[= <- _]|[]]. unfold log_file_of.
      destruct (py_eq_str fr "function_call"); auto.
    + destruct Hstore as [[-> ->]|(attrs & -> & ->)]; [by left|right; by exists attrs].
  - rewrite (analyze_found _ _ _ _ _ _ Edoc Eprompt Efr Epc), Ec.
    exists (codex s), w, (prompt_exception_note doc pc ++ ces).
    split; [cbn [snd]; rewrite <- (set_same s) at 2; by same_state|].
    apply one_analysis_quiet.
    + rewrite forallb_app, Hq, andb_true_r. unfold prompt_exception_note.
      by destruct (truthy _).
    + by rewrite model_calls_app, Hnm.
Qed.

(** *** Every way through the loop *)

Lemma doc_saves_app items1 items2 :
  doc_saves (items1 ++ items2) = doc_saves items1 ++ doc_saves items2.
Proof. apply omap_app. Qed.

Lemma reached_refl s : reached s s [] [].
Proof. unfold reached. by rewrite app_nil_r. Qed.

Lemma reached_trans s1 s2 s3 taken1 taken2 es1 es2 :
  reached s1 s2 taken1 es1 ->
  reached s2 s3 taken2 es2 ->
  reached s1 s3 (taken1 ++ taken2) (es1 ++ es2).
Proof.
  intros (Hq1 & Hh1 & Hk1 & Hp1 & Hf1) (Hq2 & Hh2 & Hk2 & Hp2 & Hf2).
  unfold reached. rewrite Hq1, Hq2, Hh2, Hh1, Hk2, Hk1, Hp2, Hp1, Hf2, Hf1.
  by rewrite !app_assoc.
Qed.

Lemma within_budget_refl s : within_budget s [] (codex s) [].
Proof. unfold within_budget. cbn. split_and!; try lia; try done; by intros ? ? []. Qed.

Lemma within_budget_trans s1 s2 c3 taken1 taken2 es1 es2 :
  prompt_completions_file s2 = prompt_completions_file s1 ->
  function_calls_file s2 = function_calls_file s1 ->
  within_budget s1 taken1 (codex s2) es1 ->
  within_budget s2 taken2 c3 es2 ->
  within_budget s1 (taken1 ++ taken2) c3 (es1 ++ es2).
Proof.
  intros Hp Hf (Ha1 & Hm1 & Hp1 & Hs1 & Hfile1 & Hid1 & Hc1)
    (Ha2 & Hm2 & Hp2 & Hs2 & Hfile2 & Hid2 & Hc2).
  unfold within_budget.
  rewrite file_appends_app, model_calls_app, parse_calls_app, store_updates_app,
    doc_saves_app, !length_app.
  split_and!; try lia.
  - intros f content [H1|H2]%in_app_or; [by eapply Hfile1|].
    rewrite <- Hp, <- Hf. by eapply Hfile2.
  - intros id fields [H1|H2]%in_app_or; apply in_or_app; [left|right]; eauto.
  - intros id Hid. rewrite Hc2, Hc1; [done|..]; intros Hin; apply Hid, in_or_app; auto.
Qed.

Lemma within_budget_one (document_id : string) s0 s c es0 es :
  prompt_completions_file s0 = prompt_completions_file s ->
  function_calls_file s0 = function_calls_file s ->
  codex s0 = codex s ->
  one_analysis document_id s0 c es ->
  file_appends es0 = [] -> model_calls es0 = [] ->
  parse_calls es0 = [] -> store_updates es0 = [] ->
  within_budget s [("doc_save", document_id)] c (es0 ++ es).
Proof.
  intros Hp Hf Hc (Ha & Hm & Hpa & Hfile & Hstore) E1 E2 E3 E4.
  unfold within_budget.
  rewrite file_appends_app, model_calls_app, parse_calls_app, store_updates_app,
    E1, E2, E3, E4.
  cbn [app doc_saves omap fst snd String.eqb length].
  change (String.eqb "doc_save" "doc_save") with true. cbn [length Nat.mul Nat.add].
  rewrite <- Hp, <- Hf, <- Hc.
  split_and!; try lia; try done.
  - destruct Hstore as [[-> _]|(attrs & -> & _)]; cbn; lia.
  - destruct Hstore as [[-> _]|(attrs & -> & _)]; [by intros ? ? []|].
    intros id fields [[= <- _]|[]]. by left.
  - destruct Hstore as [[_ ->]|(attrs & _ & ->)]; [done|].
    intros id Hid. apply merge_fields_other. intros ->. apply Hid. by left.
Qed.

Lemma within_budget_idle s (item : string * string) es :
  String.eqb item.1 "doc_save" = false ->
  file_appends es = [] -> model_calls es = [] ->
  parse_calls es = [] -> store_updates es = [] ->
  within_budget s [item] (codex s) es.
Proof.
  intros Hk E1 E2 E3 E4. unfold within_budget.
  assert (doc_saves [item] = []) as ->.
  { unfold doc_saves. change (omap ?f [item]) with (from_option (fun x => [x]) [] (f item)).
    cbv beta. by rewrite Hk. }
  rewrite E1, E2, E3, E4.
  cbn. split_and!; try lia; try done; by intros ? ? [].
Qed.

Lemma update_queue_record es s : update_queue (record es s) = update_queue s.
Proof. reflexivity. Qed.

Lemma update_queue_set_outside w s : update_queue (set_outside w s) = update_queue s.
Proof. reflexivity. Qed.

Lemma update_queue_set_codex c s : update_queue (set_codex c s) = update_queue s.
Proof. reflexivity. Qed.

Lemma update_queue_set_update_queue q s : update_queue (set_update_queue q s) = q.
Proof. reflexivity. Qed.

Lemma keep_running_record es s : keep_running (record es s) = keep_running s.
Proof. reflexivity. Qed.

Lemma keep_running_set_outside w s : keep_running (set_outside w s) = keep_running s.
Proof. reflexivity. Qed.

Lemma keep_running_set_codex c s : keep_running (set_codex c s) = keep_running s.
Proof. reflexivity. Qed.

Lemma keep_running_set_update_queue q s :
  keep_running (set_update_queue q s) = keep_running s.
Proof. reflexivity. Qed.

Lemma prompt_completions_file_record es s :
  prompt_completions_file (record es s) = prompt_completions_file s.
Proof. reflexivity. Qed.

Lemma prompt_completions_file_set_outside w s :
  prompt_completions_file (set_outside w s) = prompt_completions_file s.
Proof. reflexivity. Qed.

Lemma prompt_completions_file_set_codex c s :
  prompt_completions_file (set_codex c s) = prompt_completions_file s.
Proof. reflexivity. Qed.

Lemma prompt_completions_file_set_update_queue q s :
  prompt_completions_file (set_update_queue q s) = prompt_completions_file s.
Proof. reflexivity. Qed.

Lemma function_calls_file_record es s :
  function_calls_file (record es s) = function_calls_file s.
Proof. reflexivity. Qed.

Lemma function_calls_file_set_outside w s :
  function_calls_file (set_outside w s) = function_calls_file s.
Proof. reflexivity. Qed.

Lemma function_calls_file_set_codex c s :
  function_calls_file (set_codex c s) = function_calls_file s.
Proof. reflexivity. Qed.

Lemma function_calls_file_set_update_queue q s :
  function_calls_file (set_update_queue q s) = function_calls_file s.
Proof. reflexivity. Qed.

(** The attributes of a state built by the setters are read off one setter
    at a time. *)
Ltac project :=
  repeat progress
    (rewrite ?update_queue_record, ?update_queue_set_outside, ?update_queue_set_codex,
    ?update_queue_set_update_queue, ?keep_running_record, ?keep_running_set_outside,
    ?keep_running_set_codex, ?keep_running_set_update_queue,
    ?prompt_completions_file_record, ?prompt_completions_file_set_outside,
    ?prompt_completions_file_set_codex, ?prompt_completions_file_set_update_queue,
    ?function_calls_file_record, ?function_calls_file_set_outside,
    ?function_calls_file_set_codex, ?function_calls_file_set_update_queue,
    ?history_record, ?history_set_outside, ?history_set_codex,
    ?history_set_update_queue, ?codex_record, ?codex_set_outside, ?codex_set_codex,
    ?codex_set_update_queue).

(** The state after an analysis that followed a doc_save event. *)
Lemma reached_after_analysis (item : string * string) rest es0 es c w s :
  update_queue s = item :: rest ->
  reached s
    (record es (set_codex c (set_outside w (record es0 (set_update_queue rest s)))))
    [item] (es0 ++ es).
Proof.
  intros Hq. unfold reached. project. rewrite Hq.
  split_and!; try reflexivity. by rewrite app_assoc.
Qed.

(** One turn of the loop, whatever the queue holds and whatever the
    collaborators do. *)
Lemma iteration_reach s :
  exists taken es,
    reached s (process_queue_iteration s).2 taken es /\
    within_budget s taken (codex (process_queue_iteration s).2) es.
Proof.
  destruct (update_queue s) as [|[kind data] rest] eqn:Hq.
  { rewrite (iteration_empty _ Hq). exists [], [Sleep]. cbn [snd]. project. split.
    - unfold reached. project. by rewrite Hq.
    - unfold within_budget. cbn [doc_saves omap length Nat.mul].
      split_and!; try reflexivity; try done; by intros ? ? []. }
  destruct (String.eqb kind "doc_save") eqn:Hk.
  - apply String.eqb_eq in Hk as ->.
    rewrite (iteration_doc_save _ _ _ Hq).
    set (es0 := [Print "Processing prompt completion from queue.";
                 Log INFO ("Dequeued document ID " +:+ data +:+ " to monitor")]).
    set (s0 := record es0 (set_update_queue rest s)).
    destruct (analyze_reach data s0) as (c & w & es & Hs' & Hone).
    assert (Hbudget : within_budget s [("doc_save", data)] c (es0 ++ es)).
    { apply (within_budget_one data s0 s c es0 es); try done; subst s0; by project. }
    assert (Hreached : reached s (record es (set_codex c (set_outside w s0)))
                         [("doc_save", data)] (es0 ++ es)).
    { subst s0. by apply reached_after_analysis. }
    destruct (analyze_prompt_completions data s0) as [[[]|e] s'] eqn:Ea;
      cbn [snd] in Hs'; subst s'; cbn [snd].
    + exists [("doc_save", data)], (es0 ++ es). split; [done|]. by project.
    + assert (Hraised : exists taken es',
                reached s (record es (set_codex c (set_outside w s0))) taken es' /\
                within_budget s taken
                  (codex (record es (set_codex c (set_outside w s0)))) es').
      { exists [("doc_save", data)], (es0 ++ es). split; [done|]. by project. }
      destruct e; try exact Hraised.
      exists [("doc_save", data)], ((es0 ++ es) ++ [Sleep]). cbn [snd]. split.
      * rewrite <- (app_nil_r [("doc_save", data)]).
        apply (reached_trans _ _ _ _ _ _ _ Hreached).
        unfold reached. project. by split_and!.
      * project. rewrite <- (app_nil_r [("doc_save", data)]).
        apply (within_budget_trans s (record es (set_codex c (set_outside w s0))) c
                 [("doc_save", data)] [] (es0 ++ es) [Sleep]).
        -- subst s0. by project.
        -- subst s0. by project.
        -- by project.
        -- unfold within_budget. project. cbn [doc_saves omap length Nat.mul].
           split_and!; try reflexivity; try done; by intros ? ? [].
  - destruct (String.eqb kind "pop_context_triggered") eqn:Hk2.
    + apply String.eqb_eq in Hk2 as ->.
      rewrite (iteration_pop_context _ _ _ Hq). cbn [snd].
      exists [("pop_context_triggered", data)],
        [Print "pop_context_triggered received in Monitor"].
      split; [unfold reached; project; by rewrite Hq|].
      project. by apply within_budget_idle.
    + apply String.eqb_neq in Hk2.
      rewrite (iteration_unknown_kind _ _ _ _ Hq); [|by apply String.eqb_neq|done].
      cbn [snd]. exists [(kind, data)], []. split.
      * unfold reached. project. rewrite Hq, app_nil_r. by split_and!.
      * project. by apply within_budget_idle.
Qed.

(** Any number of turns of the loop. *)
Lemma process_queue_reach (fuel : nat) s :
  exists taken es,
    reached s (process_queue fuel s).2 taken es /\
    within_budget s taken (codex (process_queue fuel s).2) es.
Proof.
  revert s. induction fuel as [|fuel IH]; intros s.
  { exists [], []. split; [apply reached_refl|apply within_budget_refl]. }
  cbn [process_queue]. destruct (keep_running s) eqn:Hk.
  2:{ exists [], []. split; [apply reached_refl|apply within_budget_refl]. }
  destruct (iteration_reach s) as (taken1 & es1 & Hr1 & Hb1).
  destruct (process_queue_iteration s) as [[[]|e] s1]; cbn [snd] in *.
  - destruct (IH s1) as (taken2 & es2 & Hr2 & Hb2).
    exists (taken1 ++ taken2), (es1 ++ es2). split.
    + by eapply reached_trans.
    + destruct Hr1 as (_ & _ & _ & Hp & Hf). by eapply within_budget_trans.
  - by exists taken1, es1.
Qed.

(** *** Beyond the claims: the loop as a whole *)

(** X1: however long the loop runs and whatever the collaborators do, it
    takes events off the front of the queue in their order and adds none, it
    only adds to the history of effects, and it changes neither the running
    flag nor the names of the two log files. *)
Theorem X1_loop_takes_from_the_front (fuel : nat) s :
  let s' := (process_queue fuel s).2 in
  exists taken es,
    update_queue s = taken ++ update_queue s' /\
    history s' = history s ++ es /\
    keep_running s' = keep_running s /\
    prompt_completions_file s' = prompt_completions_file s /\
    function_calls_file s' = function_calls_file s.
Proof.
  intros s'. destruct (process_queue_reach fuel s) as (taken & es & Hr & _).
  by exists taken, es.
Qed.

(** X2: a run of the loop spends, for the doc_save events it took off the
    queue, at most one audit record, two model calls, one call of the parser
    and one store update each; events of other kinds and turns on an empty
    queue spend none. *)
Theorem X2_loop_budget (fuel : nat) s :
  let s' := (process_queue fuel s).2 in
  exists taken,
    update_queue s = taken ++ update_queue s' /\
    length (file_appends (since s s')) <= length (doc_saves taken) /\
    length (model_calls (since s s')) <= 2 * length (doc_saves taken) /\
    length (parse_calls (since s s')) <= length (doc_saves taken) /\
    length (store_updates (since s s')) <= length (doc_saves taken).
Proof.
  intros s'. subst s'.
  destruct (process_queue_reach fuel s)
    as (taken & es & (Hq & Hh & _) & (Ha & Hm & Hp & Hs & _)).
  exists taken. by rewrite (since_history _ _ _ Hh).
Qed.

(** X3: the loop writes to no file other than the agent's two log files. *)
Theorem X3_loop_writes_two_files_only (fuel : nat) s (f content : string) :
  In (f, content) (file_appends (since s (process_queue fuel s).2)) ->
  f = function_calls_file s \/ f = prompt_completions_file s.
Proof.
  destruct (process_queue_reach fuel s)
    as (taken & es & (_ & Hh & _) & (_ & _ & _ & _ & Hfile & _)).
  rewrite (since_history _ _ _ Hh). apply Hfile.
Qed.

(** X4: the loop updates only documents named by doc_save events that it
    took off the queue; every other document of the store is as it was. *)
Theorem X4_loop_updates_named_documents_only (fuel : nat) s :
  let s' := (process_queue fuel s).2 in
  exists taken,
    update_queue s = taken ++ update_queue s' /\
    (forall document_id fields,
        In (document_id, fields) (store_updates (since s s')) ->
        In document_id (doc_saves taken)) /\
    (forall document_id,
        ~ In document_id (doc_saves taken) ->
        codex s' !! document_id = codex s !! document_id).
Proof.
  intros s'. subst s'.
  destruct (process_queue_reach fuel s)
    as (taken & es & (Hq & Hh & _) & (_ & _ & _ & _ & _ & Hid & Hc)).
  exists taken. by rewrite (since_history _ _ _ Hh).
Qed.

Lemma process_queue_not_stopped (fuel : nat) s :
  keep_running s = true -> (process_queue fuel s).1 <> Stopped.
Proof.
  revert s. induction fuel as [|fuel IH]; intros s Hk; [done|].
  cbn [process_queue]. rewrite Hk.
  destruct (iteration_reach s) as (taken & es & (_ & _ & Hk1 & _) & _).
  destruct (process_queue_iteration s) as [[[]|e] s1]; cbn [snd] in Hk1; [|done].
  apply IH. by rewrite Hk1.
Qed.

(** X5: the loop never stops of its own accord.  Started with the running
    flag set, it is still turning when the fuel runs out, or it has been
    ended by an exception; the flag is still set. *)
Theorem X5_loop_never_stops_itself (fuel : nat) s :
  keep_running s = true ->
  let r := process_queue fuel s in
  (r.1 = Running \/ exists e, r.1 = Crashed e) /\
  keep_running r.2 = true.
Proof.
  intros Hk r. split.
  - pose proof (process_queue_not_stopped fuel s Hk) as Hn. fold r in Hn.
    destruct r.1; [done|right; eauto|by left].
  - destruct (process_queue_reach fuel s) as (taken & es & (_ & _ & Hk' & _) & _).
    subst r. by rewrite Hk'.
Qed.

(** X6: after stop() the loop leaves at its next test of the flag, without
    taking anything off the queue.  stop() itself logs one line and clears
    the flag; the queue and the store are as they were. *)
Theorem X6_stop_ends_the_loop (fuel : nat) s :
  let stopped := (stop s).2 in
  stop s = (Ok tt, set_keep_running false (record [Log INFO "Stopped monitor"] s)) /\
  process_queue (S fuel) stopped = (Stopped, stopped) /\
  update_queue stopped = update_queue s /\
  codex stopped = codex s /\
  (stop stopped).1 = Ok tt /\
  keep_running (stop stopped).2 = false.
Proof.
  intros stopped.
  assert (E : stop s =
            (Ok tt, set_keep_running false (record [Log INFO "Stopped monitor"] s))).
  { unfold stop, clear_keep_running. by run. }
  subst stopped. rewrite E. cbn [snd].
  split_and!; try reflexivity.
Qed.

(** X7: on an empty queue the loop polls: each turn sleeps once and changes
    nothing else, for as long as the flag is set. *)
Theorem X7_empty_queue_polls (fuel : nat) s :
  update_queue s = [] ->
  keep_running s = true ->
  process_queue fuel s = (Running, record (replicate fuel Sleep) s).
Proof.
  revert s. induction fuel as [|fuel IH]; intros s Hq Hk.
  { cbn [process_queue replicate]. by rewrite record_nil. }
  rewrite (process_queue_turn _ _ _ Hk (iteration_empty _ Hq)).
  rewrite IH by done. by rewrite record_record.
Qed.

(** *** Beyond the claims: one analysis *)

(** The analysis from the point where the fallback chain has returned. *)
Lemma analyze_answered (document_id : string) doc (prompt : string) (fr pc : pyval)
    (response : option string) (s2 : state) s :
  codex s !! document_id = Some doc ->
  build_prompt doc = Ok prompt ->
  doc !! "finish_reason" = Some fr ->
  doc !! "prompt_completion" = Some pc ->
  secondary_analysis_response (prompt_exception_of doc) prompt
      (note_prompt_exception doc s).2 = (Ok response, s2) ->
  exists w ces,
    s2 = record (prompt_exception_note doc pc ++ ces) (set_outside w s) /\
    forallb ask_or_log ces = true /\
    analyze_prompt_completions document_id s =
      process_response document_id doc response
        (record (prompt_exception_note doc pc ++ ces ++
                 audit_effects document_id fr pc response s)
           (set_outside w s)).
Proof.
  intros Edoc Eprompt Efr Epc Echain.
  rewrite (note_prompt_exception_run _ _ _ Epc) in Echain. cbn [snd] in Echain.
  destruct (secondary_analysis_response_reach (prompt_exception_of doc) prompt
              (record (prompt_exception_note doc pc) s)) as (w & ces & Hs2 & Hq & _).
  rewrite Echain in Hs2. cbn [snd] in Hs2. subst s2.
  exists w, ces. split; [by same_state|]. split; [done|].
  rewrite (analyze_found _ _ _ _ _ _ Edoc Eprompt Efr Epc), Echain.
  f_equal. by same_state.
Qed.

(** X8: events that are not doc_save events cost nothing.  If the queue
    holds no doc_save event, then however long the loop runs it asks no
    model, appends to no file, parses nothing, leaves the store as it is,
    and is not ended by an exception. *)
Theorem X8_other_events_cost_nothing (fuel : nat) s :
  doc_saves (update_queue s) = [] ->
  let r := process_queue fuel s in
  (forall e, r.1 <> Crashed e) /\
  model_calls (since s r.2) = [] /\
  file_appends (since s r.2) = [] /\
  parse_calls (since s r.2) = [] /\
  store_updates (since s r.2) = [] /\
  codex r.2 = codex s.
Proof.
  intros Hnone r. split.
  - subst r. revert s Hnone. induction fuel as [|fuel IH]; intros s Hnone e; [done|].
    cbn [process_queue]. destruct (keep_running s); [|done].
    destruct (update_queue s) as [|[kind data] rest] eqn:Hq.
    { rewrite (iteration_empty _ Hq). apply IH. project. by rewrite Hq. }
    destruct (String.eqb kind "doc_save") eqn:Hk.
    { exfalso. unfold doc_saves in Hnone. cbn in Hnone. by rewrite Hk in Hnone. }
    assert (Hrest : doc_saves rest = []).
    { unfold doc_saves in *. cbn in Hnone. by rewrite Hk in Hnone. }
    destruct (String.eqb kind "pop_context_triggered") eqn:Hk2.
    + apply String.eqb_eq in Hk2 as ->.
      rewrite (iteration_pop_context _ _ _ Hq). apply IH. by project.
    + rewrite (iteration_unknown_kind _ _ _ _ Hq); [|by apply String.eqb_neq..].
      apply IH. by project.
  - subst r.
    destruct (process_queue_reach fuel s)
      as (taken & es & (Hq & Hh & _) & (Ha & Hm & Hp & Hs & _ & _ & Hc)).
    rewrite (since_history _ _ _ Hh).
    rewrite Hq, doc_saves_app in Hnone. apply app_eq_nil in Hnone as [Ht _].
    rewrite Ht in *. cbn [length Nat.mul] in *.
    split_and!; try (apply length_zero_iff_nil; lia).
    apply map_eq. intros id. apply Hc. by intros [].
Qed.

(** X9: a work item that is in the store but lacks a field the prompt is
    built from.  The analysis raises the KeyError of a field the document
    does not have, before any model is asked, any file written or the store
    touched; the exception is not handled. *)
Theorem X9_missing_field_raises_KeyError (document_id : string) doc (e : exn) s :
  codex s !! document_id = Some doc ->
  doc <> ∅ ->
  build_prompt doc = Raise e ->
  let r := analyze_prompt_completions document_id s in
  (exists key, doc !! key = None /\ r.1 = Raise (KeyError key)) /\
  model_calls (since s r.2) = [] /\
  file_appends (since s r.2) = [] /\
  store_updates (since s r.2) = [] /\
  codex r.2 = codex s.
Proof.
  intros Edoc Hne Eprompt r.
  assert (Etruthy : doc_if_truthy (codex s !! document_id) = Some doc).
  { rewrite Edoc. cbn [doc_if_truthy]. by rewrite bool_decide_eq_false_2. }
  destruct (analyze_unbuildable _ _ _ _ Etruthy Eprompt)
    as (key & es & Hkey & Hr & Hq & Hm).
  destruct (ask_or_log_observations _ Hq) as (Hf & Hs & _).
  subst r. rewrite Hr. cbn [fst snd]. rewrite since_record.
  split_and!; try done. by exists key.
Qed.

(** X10: an empty document counts as no document.  When the store holds the
    empty dictionary under the id, the analysis logs "not found" and returns,
    as it does for an id that is not in the store. *)
Theorem X10_empty_document_is_not_found (document_id : string) s :
  codex s !! document_id = Some ∅ ->
  analyze_prompt_completions document_id s =
    (Ok tt,
     record [Log ERROR ("Document with ID " +:+ document_id +:+ " not found.")] s).
Proof. intros E. apply analyze_not_found. by rewrite E. Qed.

(** X11: an empty answer counts as no answer.  When the model returns the
    empty string, the audit record is written with an empty evaluation, the
    error "No response received" is logged, and nothing is parsed or
    stored. *)
Theorem X11_empty_answer_is_no_answer (document_id : string) doc (prompt : string)
    (fr pc : pyval) (w1 : world) s :
  codex s !! document_id = Some doc ->
  build_prompt doc = Ok prompt ->
  doc !! "finish_reason" = Some fr ->
  doc !! "prompt_completion" = Some pc ->
  quick_ask (outside s) prompt (primary_model (prompt_exception_of doc)) = (Ok "", w1) ->
  let r := analyze_prompt_completions document_id s in
  r.1 = Ok tt /\
  model_calls (since s r.2) = [(prompt, primary_model (prompt_exception_of doc))] /\
  file_appends (since s r.2) =
    [(log_file_of fr s, log_content_of document_id pc (Some ""))] /\
  last (since s r.2) = Some no_response_line /\
  parse_calls (since s r.2) = [] /\
  store_updates (since s r.2) = [] /\
  codex r.2 = codex s.
Proof.
  intros Edoc Eprompt Efr Epc E1 r.
  pose proof (secondary_analysis_response_cases (prompt_exception_of doc) prompt
                (record (prompt_exception_note doc pc) s)) as C.
  cbv zeta in C. rewrite outside_record, E1 in C.
  subst r. rewrite (analyze_found _ _ _ _ _ _ Edoc Eprompt Efr Epc), C.
  rewrite process_response_none by done. cbn [fst snd].
  destruct (observe_note doc pc) as (Hf & Hm & Hs & Hp & _).
  match goal with
  | |- context [since s ?s'] =>
      assert (Hsince : since s s' =
                prompt_exception_note doc pc ++
                [QuickAsk prompt (primary_model (prompt_exception_of doc))] ++
                audit_effects document_id fr pc (Some "") s ++ [no_response_line])
        by (apply since_history; by same_state);
      rewrite !Hsince; clear Hsince
  end.
  rewrite !file_appends_app, !model_calls_app, !parse_calls_app, !store_updates_app,
    Hf, Hm, Hs, Hp.
  split_and!; try reflexivity.
  rewrite !app_assoc. apply last_snoc.
Qed.

Lemma since_answered s (es tail : list effect) c w w' :
  since s (record tail (set_codex c (set_outside w' (record es (set_outside w s))))) =
  es ++ tail.
Proof. apply since_history. project. by rewrite app_assoc. Qed.

(** X12: the text that the fallback chain returns, from whichever model, is
    the text that is audited, parsed and stored.  When the parser returns a
    report and the store accepts the update, the analysis appends one record
    holding the text, parses the text once, and merges the report without
    its None fields into the work item. *)
Theorem X12_answer_is_audited_parsed_and_stored (document_id : string) doc
    (prompt : string) (fr pc : pyval) (text : string) (s2 : state)
    (attrs : gmap string pyval) (w1 w2 : world) s :
  codex s !! document_id = Some doc ->
  build_prompt doc = Ok prompt ->
  doc !! "finish_reason" = Some fr ->
  doc !! "prompt_completion" = Some pc ->
  secondary_analysis_response (prompt_exception_of doc) prompt
      (note_prompt_exception doc s).2 = (Ok (Some text), s2) ->
  text <> "" ->
  parse (outside s2) text = (Ok attrs, w1) ->
  update_rejected w1 document_id (report_of attrs) = (None, w2) ->
  let r := analyze_prompt_completions document_id s in
  r.1 = Ok tt /\
  file_appends (since s r.2) =
    [(log_file_of fr s, log_content_of document_id pc (Some text))] /\
  parse_calls (since s r.2) = [text] /\
  store_updates (since s r.2) = [(document_id, report_of attrs)] /\
  codex r.2 = merge_fields document_id (report_of attrs) (codex s).
Proof.
  intros Edoc Eprompt Efr Epc Echain Htext Eparse Eupdate r.
  destruct (analyze_answered _ _ _ _ _ _ _ _ Edoc Eprompt Efr Epc Echain)
    as (w & ces & -> & Hq & Hr).
  rewrite outside_record, outside_set_outside in Eparse.
  assert (Et : response_truthy (Some text) = true) by by destruct text.
  match type of Hr with
  | _ = process_response _ _ _ ?s3 =>
      pose proof (process_response_cases document_id doc (Some text) s3 Et) as C
  end.
  cbv zeta in C. rewrite outside_record, outside_set_outside in C.
  cbn [response_str] in C. rewrite Eparse, Eupdate in C.
  subst r. rewrite Hr, C. cbn [fst snd]. project.
  rewrite since_answered.
  destruct (observe_note doc pc) as (Hnf & _ & Hns & Hnp & _).
  destruct (ask_or_log_observations _ Hq) as (Hcf & Hcs & Hcp).
  rewrite !file_appends_app, !parse_calls_app, !store_updates_app,
    Hnf, Hns, Hnp, Hcf, Hcs, Hcp.
  split_and!; reflexivity.
Qed.

(** X13: a store that turns the update down does not end the analysis.  The
    exception is caught and logged as an error, the analysis returns, the
    audit record is in the file and the store is as it was. *)
Theorem X13_rejected_update_is_logged (document_id : string) doc
    (prompt : string) (fr pc : pyval) (text : string) (s2 : state)
    (attrs : gmap string pyval) (e : exn) (w1 w2 : world) s :
  codex s !! document_id = Some doc ->
  build_prompt doc = Ok prompt ->
  doc !! "finish_reason" = Some fr ->
  doc !! "prompt_completion" = Some pc ->
  secondary_analysis_response (prompt_exception_of doc) prompt
      (note_prompt_exception doc s).2 = (Ok (Some text), s2) ->
  text <> "" ->
  parse (outside s2) text = (Ok attrs, w1) ->
  update_rejected w1 document_id (report_of attrs) = (Some e, w2) ->
  let r := analyze_prompt_completions document_id s in
  r.1 = Ok tt /\
  last (since s r.2) =
    Some (Log ERROR ("Failed to update document " +:+ document_id +:+
                     " with analysis report: " +:+ exn_str e)) /\
  file_appends (since s r.2) =
    [(log_file_of fr s, log_content_of document_id pc (Some text))] /\
  store_updates (since s r.2) = [] /\
  codex r.2 = codex s.
Proof.
  intros Edoc Eprompt Efr Epc Echain Htext Eparse Eupdate r.
  destruct (analyze_answered _ _ _ _ _ _ _ _ Edoc Eprompt Efr Epc Echain)
    as (w & ces & -> & Hq & Hr).
  rewrite outside_record, outside_set_outside in Eparse.
  assert (Et : response_truthy (Some text) = true) by by destruct text.
  match type of Hr with
  | _ = process_response _ _ _ ?s3 =>
      pose proof (process_response_cases document_id doc (Some text) s3 Et) as C
  end.
  cbv zeta in C. rewrite outside_record, outside_set_outside in C.
  cbn [response_str] in C. rewrite Eparse, Eupdate in C.
  subst r. rewrite Hr, C. cbn [fst snd]. project.
  rewrite set_outside_record, set_outside_set_outside, record_record, since_asked.
  destruct (observe_note doc pc) as (Hnf & _ & Hns & _).
  destruct (ask_or_log_observations _ Hq) as (Hcf & Hcs & _).
  rewrite !file_appends_app, !store_updates_app, Hnf, Hns, Hcf, Hcs.
  split_and!; try reflexivity.
  unfold rejected_effects.
  rewrite !app_assoc.
  match goal with
  | |- last (?l ++ [?a; ?b]) = _ => change (l ++ [a; b]) with (l ++ [a] ++ [b])
  end.
  rewrite app_assoc. apply last_snoc.
Qed.

(** X14: a parser that raises ends the analysis with its exception, after
    the audit record has been written: the record is in the file, the store
    is as it was, and nothing is logged about the failure. *)
Theorem X14_parser_failure_after_audit (document_id : string) doc
    (prompt : string) (fr pc : pyval) (text : string) (s2 : state)
    (e : exn) (w1 : world) s :
  codex s !! document_id = Some doc ->
  build_prompt doc = Ok prompt ->
  doc !! "finish_reason" = Some fr ->
  doc !! "prompt_completion" = Some pc ->
  secondary_analysis_response (prompt_exception_of doc) prompt
      (note_prompt_exception doc s).2 = (Ok (Some text), s2) ->
  text <> "" ->
  parse (outside s2) text = (Raise e, w1) ->
  let r := analyze_prompt_completions document_id s in
  r.1 = Raise e /\
  file_appends (since s r.2) =
    [(log_file_of fr s, log_content_of document_id pc (Some text))] /\
  parse_calls (since s r.2) = [text] /\
  store_updates (since s r.2) = [] /\
  log_lines ERROR (since s r.2) = log_lines ERROR (since s s2) /\
  codex r.2 = codex s.
Proof.
  intros Edoc Eprompt Efr Epc Echain Htext Eparse r.
  destruct (analyze_answered _ _ _ _ _ _ _ _ Edoc Eprompt Efr Epc Echain)
    as (w & ces & -> & Hq & Hr).
  rewrite outside_record, outside_set_outside in Eparse.
  assert (Et : response_truthy (Some text) = true) by by destruct text.
  match type of Hr with
  | _ = process_response _ _ _ ?s3 =>
      pose proof (process_response_cases document_id doc (Some text) s3 Et) as C
  end.
  cbv zeta in C. rewrite outside_record, outside_set_outside in C.
  cbn [response_str] in C. rewrite Eparse in C.
  subst r. rewrite Hr, C. cbn [fst snd]. project.
  rewrite set_outside_record, set_outside_set_outside, record_record, !since_asked.
  destruct (observe_note doc pc) as (Hnf & _ & Hns & Hnp & _).
  destruct (ask_or_log_observations _ Hq) as (Hcf & Hcs & Hcp).
  rewrite !file_appends_app, !store_updates_app, !parse_calls_app, !log_lines_app,
    Hnf, Hns, Hnp, Hcf, Hcs, Hcp.
  split_and!; try reflexivity.
  cbn [audit_effects parse_effects log_lines omap app]. by rewrite !app_nil_r.
Qed.

(** X15: a doc_save event for an id that is not in the store does not end
    the loop: the event is taken, the miss is logged as an error, and the
    loop turns again with the rest of the queue. *)
Theorem X15_missing_document_not_fatal (fuel : nat) (document_id : string)
    (rest : list (string * string)) s :
  keep_running s = true ->
  update_queue s = ("doc_save", document_id) :: rest ->
  codex s !! document_id = None ->
  process_queue (S fuel) s =
    process_queue fuel
      (record [Print "Processing prompt completion from queue.";
               Log INFO ("Dequeued document ID " +:+ document_id +:+ " to monitor");
               Log ERROR ("Document with ID " +:+ document_id +:+ " not found.")]
         (set_update_queue rest s)).
Proof.
  intros Hk Hq Edoc. apply process_queue_turn; [done|].
  rewrite (iteration_doc_save _ _ _ Hq).
  rewrite analyze_not_found by (project; by rewrite Edoc).
  by rewrite record_record.
Qed.

(** *** Beyond the claims: the file names and the colour test *)

Lemma os_path_join_inj (dir name1 name2 : string) :
  os_path_join dir name1 = os_path_join dir name2 -> name1 = name2.
Proof.
  unfold os_path_join. destruct dir as [|c dir]; [done|].
  destruct (ends_with_slash (String c dir)).
  - apply (inj (String.append (String c dir))).
  - intros E. apply (inj (String.append (String c dir))) in E.
    by apply (inj (String.append "/")) in E.
Qed.

(** X16: whatever the evaluations directory, the agent is constructed with
    two different log files, one for the function-call records and one for
    the others, with the running flag set, with the store and the queue it
    was given, and having logged one line. *)
Theorem X16_two_log_files (codex0 : gmap string (gmap string pyval))
    (queue : list (string * string)) (evaluations_dir counter_type : string)
    (w : world) :
  let s := construct codex0 queue evaluations_dir w counter_type in
  prompt_completions_file s <> function_calls_file s /\
  keep_running s = true /\
  update_queue s = queue /\
  codex s = codex0 /\
  history s = [Log INFO ("Initialized global_token_counter: " +:+ counter_type)].
Proof.
  intros s. split; [|done].
  intros E. apply os_path_join_inj in E. discriminate E.
Qed.

Lemma string_prefix_split (a b : string) :
  String.prefix a b = true <-> exists rest, b = a +:+ rest.
Proof.
  revert b. induction a as [|x a IH]; intros b.
  { split; [by exists b|]. by destruct b. }
  destruct b as [|y b]; cbn [String.prefix].
  { split; [done|]. by intros [rest [=]]. }
  destruct (ascii_dec x y) as [->|Hne].
  - rewrite IH. split; intros [rest E]; exists rest.
    + change (String y a +:+ rest) with (String y (a +:+ rest)). by rewrite E.
    + change (String y a +:+ rest) with (String y (a +:+ rest)) in E. by injection E.
  - split; [done|]. intros [rest E].
    change (String x a +:+ rest) with (String x (a +:+ rest)) in E. congruence.
Qed.

Lemma str_contains_occurs (needle text : string) :
  str_contains needle text = true <-> occurs_in needle text.
Proof.
  unfold occurs_in. induction text as [|c text IH]; cbn [str_contains].
  - rewrite string_prefix_split. split.
    + intros [rest E]. by exists "", rest.
    + intros (before & after & E). destruct before; [by exists after|done].
  - rewrite orb_true_iff, string_prefix_split, IH. split.
    + intros [[rest E]|(before & after & E)].
      * by exists "", rest.
      * exists (String c before), after.
        change (String c before +:+ needle +:+ after)
          with (String c (before +:+ needle +:+ after)).
        by rewrite E.
    + intros (before & after & E). destruct before as [|c' before].
      * left. by exists after.
      * right. exists before, after.
        change (String c' before +:+ needle +:+ after)
          with (String c' (before +:+ needle +:+ after)) in E.
        by injection E.
Qed.

(** X17: is_green_log answers True exactly for the messages in which the
    ANSI code ESC[92m occurs, at the start or anywhere else; the empty
    message is not green. *)
Theorem X17_is_green_log_finds_the_code (log_message : string) :
  (is_green_log log_message = true <->
   exists before after, log_message = before +:+ green_color_code +:+ after) /\
  is_green_log "" = false.
Proof. split; [apply str_contains_occurs|reflexivity]. Qed.

(** X18: whenever the fallback chain returns, with a text or with None, the
    analysis appends exactly one audit record: to the function-calls file
    when finish_reason is "function_call", to the prompt-completions file
    for every other value; and it updates the store at most once. *)
Theorem X18_audit_record_routed (document_id : string) doc (prompt : string)
    (fr pc : pyval) (response : option string) (s2 : state) s :
  codex s !! document_id = Some doc ->
  build_prompt doc = Ok prompt ->
  doc !! "finish_reason" = Some fr ->
  doc !! "prompt_completion" = Some pc ->
  secondary_analysis_response (prompt_exception_of doc) prompt
      (note_prompt_exception doc s).2 = (Ok response, s2) ->
  let r := analyze_prompt_completions document_id s in
  (fr = PyStr "function_call" ->
   file_appends (since s r.2) =
     [(function_calls_file s, log_content_of document_id pc response)]) /\
  (fr <> PyStr "function_call" ->
   file_appends (since s r.2) =
     [(prompt_completions_file s, log_content_of document_id pc response)]) /\
  length (store_updates (since s r.2)) <= 1.
Proof.
  intros Edoc Eprompt Efr Epc Echain r.
  destruct (analyze_appends_once _ _ _ _ _ _ _ _ Edoc Eprompt Efr Epc Echain)
    as [Hfile Hstore].
  fold r in Hfile, Hstore. split_and!; [| |exact Hstore].
  - intros ->. exact Hfile.
  - intros Hne. rewrite Hfile. unfold log_file_of.
    by rewrite (py_eq_str_false _ _ Hne).
Qed.

(** X19: the except clause of the loop spans the analysis.  An exception of
    class queue.Empty that leaves the analysis of a doc_save event is taken
    for an empty queue: the loop sleeps and turns again, the event is gone
    from the queue, and no audit record was written for it. *)
Theorem X19_queue_empty_from_the_analysis (fuel : nat) (document_id : string)
    (rest : list (string * string)) doc (prompt : string) (w1 : world) s :
  keep_running s = true ->
  update_queue s = ("doc_save", document_id) :: rest ->
  codex s !! document_id = Some doc ->
  build_prompt doc = Ok prompt ->
  quick_ask (outside s) prompt (primary_model (prompt_exception_of doc)) =
    (Raise QueueEmpty, w1) ->
  exists s',
    process_queue_iteration s = (Ok tt, s') /\
    process_queue (S fuel) s = process_queue fuel s' /\
    update_queue s' = rest /\
    last (history s') = Some Sleep /\
    file_appends (since s s') = [] /\
    log_lines ERROR (since s s') = [].
Proof.
  intros Hk Hq Edoc Eprompt E1.
  destruct (build_prompt_fields _ _ Eprompt) as (fr & pc & Efr & Epc).
  set (es0 := [Print "Processing prompt completion from queue.";
               Log INFO ("Dequeued document ID " +:+ document_id +:+ " to monitor")]).
  set (s0 := record es0 (set_update_queue rest s)).
  assert (Edoc0 : codex s0 !! document_id = Some doc) by (subst s0; by project).
  pose proof (analyze_found _ _ _ _ _ _ Edoc0 Eprompt Efr Epc) as Ha.
  pose proof (secondary_analysis_response_cases (prompt_exception_of doc) prompt
                (record (prompt_exception_note doc pc) s0)) as C.
  cbv zeta in C. subst s0.
  rewrite !outside_record in C.
  change (outside (set_update_queue rest s)) with (outside s) in C.
  rewrite E1 in C. rewrite C in Ha.
  pose proof (iteration_doc_save _ _ _ Hq) as Hi. fold es0 in Hi. rewrite Ha in Hi.
  match type of Hi with _ = (_, ?s1) => exists s1 end.
  destruct (observe_note doc pc) as (Hnf & _ & _ & _ & Hnl).
  match goal with
  | |- context [since s ?s'] =>
      assert (Hsince : since s s' =
                es0 ++ prompt_exception_note doc pc ++
                [QuickAsk prompt (primary_model (prompt_exception_of doc)); Sleep])
        by (apply since_history; project; by rewrite <- !app_assoc)
  end.
  rewrite !Hsince. project.
  rewrite !file_appends_app, !log_lines_app, Hnf, Hnl.
  split_and!; try reflexivity.
  - exact Hi.
  - by apply process_queue_turn.
  - apply last_snoc.
Qed.

(** The first thing the analysis of a well-formed work item does after the
    note on prompt_exception is to ask the primary model. *)
Lemma analyze_first_call (document_id : string) doc (prompt : string) (pc : pyval) s :
  codex s !! document_id = Some doc ->
  build_prompt doc = Ok prompt ->
  doc !! "prompt_completion" = Some pc ->
  exists rest,
    since s (analyze_prompt_completions document_id s).2 =
      prompt_exception_note doc pc ++
      QuickAsk prompt (primary_model (prompt_exception_of doc)) :: rest.
Proof.
  intros Edoc Eprompt Epc.
  destruct (build_prompt_fields _ _ Eprompt) as (fr & pc' & Efr & Epc').
  assert (pc' = pc) as -> by congruence.
  destruct (secondary_analysis_response_frame (prompt_exception_of doc) prompt
              (record (prompt_exception_note doc pc) s)) as (w & ces & Hs2 & _).
  destruct (secondary_analysis_response (prompt_exception_of doc) prompt
              (record (prompt_exception_note doc pc) s))
    as [[response|e] s2] eqn:Ec; cbn [snd] in Hs2; subst s2.
  - destruct (analyze_with_response _ _ _ _ pc response w _ s Edoc Eprompt Efr Epc Ec)
      as (c & w' & es & Hr & _).
    eexists. rewrite Hr, since_evolved. reflexivity.
  - eexists. rewrite (analyze_found _ _ _ _ _ _ Edoc Eprompt Efr Epc), Ec. cbn [snd].
    apply since_history. by same_state.
Qed.

(** X24: a missing prompt_exception and a null one are not the same.  The
    default True applies only when the key is missing: the analysis then
    logs the "Handling exception" line and asks gpt-4-32k first.  A stored
    None, like a stored False, is false: nothing is logged before the model
    call, which goes to gpt-4-0125-preview.  A stored non-empty string, even
    "False", is true. *)
Theorem X24_missing_and_null_prompt_exception (document_id : string) doc
    (prompt : string) (pc : pyval) s :
  codex s !! document_id = Some doc ->
  build_prompt doc = Ok prompt ->
  doc !! "prompt_completion" = Some pc ->
  let effects := since s (analyze_prompt_completions document_id s).2 in
  let handling :=
    Log INFO ("Handling exception by analyzing the prompt completion:" +:+ nl +:+
              py_str pc) in
  (doc !! "prompt_exception" = None ->
   exists rest, effects = handling :: QuickAsk prompt "gpt-4-32k" :: rest) /\
  (doc !! "prompt_exception" = Some PyNone ->
   exists rest, effects = QuickAsk prompt "gpt-4-0125-preview" :: rest) /\
  (doc !! "prompt_exception" = Some (PyBool false) ->
   exists rest, effects = QuickAsk prompt "gpt-4-0125-preview" :: rest) /\
  (doc !! "prompt_exception" = Some (PyStr "False") ->
   exists rest, effects = handling :: QuickAsk prompt "gpt-4-32k" :: rest).
Proof.
  intros Edoc Eprompt Epc effects handling.
  destruct (analyze_first_call _ _ _ _ _ Edoc Eprompt Epc) as (rest & Hrest).
  subst effects. rewrite Hrest.
  unfold prompt_exception_note, primary_model, prompt_exception_of, dict_get.
  split_and!; intros ->; by exists rest.
Qed.

End Properties.

(** ** The scenarios, run *)

Lemma sample_store_doc_7 : sample_store !! "doc-7" = Some doc_7.
Proof. unfold sample_store. by simplify_map_eq. Qed.

Lemma sample_store_doc_42 : sample_store !! "doc-42" = Some doc_42.
Proof. unfold sample_store. by simplify_map_eq. Qed.

Lemma sample_store_doc_call : sample_store !! "doc-call" = Some doc_call.
Proof. unfold sample_store. by simplify_map_eq. Qed.

Lemma sample_store_doc_99 : sample_store !! "doc-99" = None.
Proof. unfold sample_store. by simplify_map_eq. Qed.

Lemma build_prompt_doc_7 (answer : string -> result string)
    (parsed : result (gmap string pyval)) (verdict : option exn) :
  build_prompt (env := scripted answer parsed verdict) doc_7 = Ok prompt_7.
Proof. vm_compute. reflexivity. Qed.

Lemma C4_missing_document_witness :
  let s := agent_over all_well tt [] in
  let r := analyze_prompt_completions "doc-99" s in
  codex s !! "doc-99" = None /\
  r = (Ok tt, record [Log ERROR "Document with ID doc-99 not found."] s) /\
  file_appends (since s r.2) = [] /\
  store_updates (since s r.2) = [] /\
  model_calls (since s r.2) = [] /\
  codex r.2 = codex s.
Proof.
  intros s r.
  assert (E : codex s !! "doc-99" = None) by exact sample_store_doc_99.
  split; [exact E|].
  exact (C4_missing_document (env := all_well) "doc-99" s E).
Defined.

Lemma C1_fallback_chain_witness :
  let s := agent_over too_long_everywhere tt [] in
  let r := analyze_prompt_completions "doc-7" s in
  r.1 = Ok tt /\
  model_calls (since s r.2) =
    [(prompt_7, "gpt-4-32k"); (prompt_7, "gpt-4-1106-preview")] /\
  last (since s r.2) = Some no_response_line.
Proof.
  intros s r.
  destruct (C1_fallback_chain (env := too_long_everywhere) "doc-7" doc_7 prompt_7 s)
    as [_ Hretry].
  - exact sample_store_doc_7.
  - apply build_prompt_doc_7.
  - destruct (Hretry "context length exceeded" tt) as [_ Htwice];
      [vm_compute; reflexivity|].
    destruct (Htwice "context length exceeded" tt) as (_ & Hr & Hm & Hl);
      [vm_compute; reflexivity|].
    exact (conj Hr (conj Hm Hl)).
Defined.

Lemma C2_size_limit_twice_witness :
  let s := agent_over too_long_everywhere tt [] in
  let r := analyze_prompt_completions "doc-7" s in
  r.1 = Ok tt /\
  file_appends (since s r.2) =
    [("evaluations/prompt_completions_log.txt",
      log_content_of "doc-7" (PyStr "Section 1 ...") None)] /\
  log_lines ERROR (since s r.2) =
    ["Failed again with model gpt-4-1106-preview: context length exceeded";
     "No response received from secondary analysis."] /\
  parse_calls (since s r.2) = [] /\
  store_updates (since s r.2) = [] /\
  codex r.2 = codex s.
Proof.
  intros s r.
  apply (C2_size_limit_twice (env := too_long_everywhere) "doc-7" doc_7 prompt_7
           (PyStr "stop") (PyStr "Section 1 ...")
           "context length exceeded" "context length exceeded" tt tt s);
    [exact sample_store_doc_7 | apply build_prompt_doc_7 | vm_compute; reflexivity..].
Defined.

(** Both attempts fail with a size-limit error, and yet the audit file
    receives a record and two errors are logged. *)
Lemma C2_counterexample :
  let s := agent_over too_long_everywhere tt [] in
  let r := analyze_prompt_completions "doc-7" s in
  quick_ask (Collaborators := too_long_everywhere) tt prompt_7 "gpt-4-32k" =
    (Raise (ContextLengthExceededException "context length exceeded"), tt) /\
  quick_ask (Collaborators := too_long_everywhere) tt prompt_7 "gpt-4-1106-preview" =
    (Raise (ContextLengthExceededException "context length exceeded"), tt) /\
  model_calls (since s r.2) =
    [(prompt_7, "gpt-4-32k"); (prompt_7, "gpt-4-1106-preview")] /\
  length (file_appends (since s r.2)) = 1 /\
  length (log_lines ERROR (since s r.2)) = 2 /\
  ~ (length (file_appends (since s r.2)) = 0 /\
     length (log_lines ERROR (since s r.2)) = 1).
Proof.
  intros s r. split_and!; try (vm_compute; reflexivity).
  intros [E _]. vm_compute in E. discriminate E.
Qed.

Lemma C9_no_response_no_write_witness :
  let s := agent_over too_long_everywhere tt [] in
  let r := analyze_prompt_completions "doc-7" s in
  r.1 = Ok tt /\
  parse_calls (since s r.2) = [] /\
  store_updates (since s r.2) = [] /\
  codex r.2 = codex s /\
  codex r.2 !! "doc-7" = Some doc_7.
Proof.
  intros s r.
  destruct (C9_no_response_no_write (env := too_long_everywhere) "doc-7" doc_7 prompt_7
              (secondary_analysis_response (prompt_exception_of doc_7) prompt_7
                 (note_prompt_exception doc_7 s).2).2 s)
    as [(fr & pc & _ & _ & Hr) Hrest].
  - exact sample_store_doc_7.
  - apply build_prompt_doc_7.
  - vm_compute; reflexivity.
  - split; [|exact Hrest]. fold r in Hr. by rewrite Hr.
Defined.

Lemma string_append_assoc (a b c : string) : (a +:+ b) +:+ c = a +:+ (b +:+ c).
Proof.
  induction a as [|x a IH]; [done|].
  change (String x ((a +:+ b) +:+ c) = String x (a +:+ (b +:+ c))). by rewrite IH.
Qed.

Lemma string_append_empty (a : string) : a +:+ "" = a.
Proof.
  induction a as [|x a IH]; [done|].
  change (String x (a +:+ "") = String x a). by rewrite IH.
Qed.

(** The stand-in templates do what the spec asks of the templates. *)
Lemma sample_function_call_template_shows_inputs (answer : string -> result string)
    (parsed : result (gmap string pyval)) (verdict : option exn) :
  function_call_template_shows_inputs (env := scripted answer parsed verdict).
Proof.
  intros sm oc fn fa pc. cbn [make_prompt_for_function_call_analysis scripted].
  unfold sample_function_call_template. split.
  - exists ("Function call analysis" +:+ nl +:+ py_str sm +:+ nl +:+ py_str oc +:+ nl),
      (nl +:+ py_str fa +:+ nl +:+ py_str pc).
    by rewrite !string_append_assoc.
  - exists ("Function call analysis" +:+ nl +:+ py_str sm +:+ nl +:+ py_str oc +:+ nl +:+
            py_str fn +:+ nl),
      (nl +:+ py_str pc).
    by rewrite !string_append_assoc.
Qed.

Lemma sample_secondary_template_shows_response (answer : string -> result string)
    (parsed : result (gmap string pyval)) (verdict : option exn) :
  secondary_template_shows_response (env := scripted answer parsed verdict).
Proof.
  intros sm oc pc rm. cbn [make_prompt_for_secondary_analysis scripted].
  unfold sample_secondary_template.
  exists ("Secondary analysis" +:+ nl +:+ py_str sm +:+ nl +:+ py_str oc +:+ nl +:+
          py_str pc +:+ nl), "".
  by rewrite !string_append_assoc, string_append_empty.
Qed.

Lemma C7_template_by_finish_reason_witness :
  let prompt :=
    sample_function_call_template (PyStr "You draft documents.")
      (PyStr "user: save the draft") (PyStr "save_draft")
      (PyObj true "{'path': 'draft.txt'}") (PyStr "save_draft") in
  build_prompt (env := all_well) doc_call_named = Ok prompt /\
  occurs_in "save_draft" prompt /\
  occurs_in "{'path': 'draft.txt'}" prompt.
Proof.
  intros prompt.
  destruct (C7_template_by_finish_reason (env := all_well) doc_call_named
              (PyStr "function_call") (PyStr "You draft documents.")
              (PyStr "user: save the draft") (PyStr "save_draft"))
    as [Hcall _].
  - vm_compute; reflexivity.
  - vm_compute; reflexivity.
  - vm_compute; reflexivity.
  - vm_compute; reflexivity.
  - apply sample_function_call_template_shows_inputs.
  - apply sample_secondary_template_shows_response.
  - apply (Hcall eq_refl (PyStr "save_draft") (PyObj true "{'path': 'draft.txt'}"));
      vm_compute; reflexivity.
Defined.

Lemma C10_placeholders_witness :
  let s := agent_over all_well tt [] in
  let prompt :=
    sample_function_call_template (PyStr "You draft documents.")
      (PyStr "user: save the draft") (PyStr "Unknown function name")
      (PyStr "Unknown arguments") (PyStr "save_draft") in
  doc_call !! "function_name" = None /\
  doc_call !! "function_arguments" = None /\
  build_prompt (env := all_well) doc_call = Ok prompt /\
  exists rest,
    since s (analyze_prompt_completions "doc-call" s).2 =
      prompt_exception_note doc_call (PyStr "save_draft") ++
      QuickAsk prompt "gpt-4-32k" :: rest.
Proof.
  intros s prompt.
  assert (Efn : doc_call !! "function_name" = None) by (vm_compute; reflexivity).
  assert (Efa : doc_call !! "function_arguments" = None) by (vm_compute; reflexivity).
  destruct (C10_placeholders (env := all_well) "doc-call" doc_call
              (PyStr "You draft documents.") (PyStr "user: save the draft")
              (PyStr "save_draft") s)
    as (Hboth & _ & _ & Hsent).
  - vm_compute; reflexivity.
  - vm_compute; reflexivity.
  - vm_compute; reflexivity.
  - vm_compute; reflexivity.
  - split_and!; [exact Efn | exact Efa | exact (Hboth Efn Efa) |].
    destruct (Hsent sample_store_doc_call) as (prompt' & rest & Hp & Hs).
    rewrite (Hboth Efn Efa) in Hp. injection Hp as <-.
    exists rest. exact Hs.
Defined.

Lemma C6_merge_only_present_fields_witness :
  let report := report_of sample_report in
  let c' := merge_fields "doc-42" report sample_store in
  sample_store !! "doc-42" = Some doc_42 /\
  report !! "accuracy" = Some (PyStr "high") /\
  report !! "completeness" = None /\
  (exists d',
      c' !! "doc-42" = Some d' /\
      d' !! "accuracy" = Some (PyStr "high") /\
      d' !! "completeness" = None /\
      d' !! "prompt_completion" = Some (PyStr "Section 1 ...")) /\
  c' !! "doc-7" = Some doc_7 /\
  merge_fields "doc-42" report c' = c'.
Proof.
  intros report c'.
  destruct (C6_merge_only_present_fields (env := all_well) "doc-42" sample_report
              doc_42 sample_store
              sample_store_doc_42)
    as (Hnone & Hsome & (d' & Hd' & Hnew & Hold) & Hother & Hidem & _).
  assert (Eacc : report !! "accuracy" = Some (PyStr "high")).
  { apply Hsome. split; [vm_compute; reflexivity|discriminate]. }
  assert (Ecom : report !! "completeness" = None).
  { apply Hnone. vm_compute; reflexivity. }
  assert (Epc : report !! "prompt_completion" = None).
  { destruct (report !! "prompt_completion") as [v|] eqn:E; [|reflexivity].
    apply Hsome in E as [E _]. vm_compute in E. discriminate E. }
  split_and!; try assumption.
  - exact sample_store_doc_42.
  - exists d'. split_and!; [exact Hd' | exact (Hnew _ _ Eacc) | |].
    + rewrite (Hold _ Ecom). vm_compute; reflexivity.
    + rewrite (Hold _ Epc). vm_compute; reflexivity.
  - etrans; [apply (Hother "doc-7"); discriminate | exact sample_store_doc_7].
Defined.

Lemma C8_unknown_kind_ignored_witness :
  let s := agent_over all_well tt [("shutdown", "now"); ("doc_save", "doc-99")] in
  let r := process_queue_iteration s in
  r = (Ok tt, set_update_queue [("doc_save", "doc-99")] s) /\
  since s r.2 = [] /\
  forall fuel,
    process_queue (S fuel) s =
      process_queue fuel (set_update_queue [("doc_save", "doc-99")] s).
Proof.
  intros s r.
  destruct (C8_unknown_kind_ignored (env := all_well) "shutdown" "now"
              [("doc_save", "doc-99")] s)
    as (Hr & Hsince & Hturn & _).
  - reflexivity.
  - discriminate.
  - discriminate.
  - split_and!; [exact Hr | exact Hsince | exact (Hturn eq_refl)].
Defined.

(** An event of an unknown kind leaves no trace in the log: no warning is
    written for it. *)
Lemma C8_counterexample :
  let s := agent_over all_well tt [("shutdown", "now"); ("doc_save", "doc-99")] in
  let r := process_queue_iteration s in
  r.1 = Ok tt /\
  update_queue r.2 = [("doc_save", "doc-99")] /\
  since s r.2 = [] /\
  ~ (exists msg, In (Log WARNING msg) (since s r.2)).
Proof.
  intros s r.
  assert (E : since s r.2 = []) by (vm_compute; reflexivity).
  split_and!; try (vm_compute; reflexivity).
  rewrite E. intros [msg []].
Qed.

(** C3: the analysis does not handle every failure.  With the model endpoint
    unreachable, the first doc_save event ends the loop with the exception of
    the model call, which is not logged; the second event stays in the queue.
    The same happens when the parser fails on the model's answer. *)
Theorem C3_failure_ends_loop (fuel : nat) :
  let queue := [("doc_save", "doc-7"); ("doc_save", "doc-42")] in
  let down := process_queue (S fuel) (agent_over endpoint_down tt queue) in
  let broken := process_queue (S fuel) (agent_over parser_broken tt queue) in
  down.1 = Crashed (OtherException "connection reset") /\
  update_queue down.2 = [("doc_save", "doc-42")] /\
  log_lines ERROR (history down.2) = [] /\
  broken.1 = Crashed (OtherException "no JSON found") /\
  update_queue broken.2 = [("doc_save", "doc-42")] /\
  log_lines ERROR (history broken.2) = [].
Proof.
  intros queue down broken.
  assert (Hdown : down =
            (Crashed (OtherException "connection reset"),
             (process_queue_iteration (agent_over endpoint_down tt queue)).2)).
  { apply process_queue_crash; [reflexivity|]. vm_compute; reflexivity. }
  assert (Hbroken : broken =
            (Crashed (OtherException "no JSON found"),
             (process_queue_iteration (agent_over parser_broken tt queue)).2)).
  { apply process_queue_crash; [reflexivity|]. vm_compute; reflexivity. }
  rewrite Hdown, Hbroken. cbn [fst snd].
  split_and!; vm_compute; reflexivity.
Qed.

(** C5: a doc_save event for a work item that is in the store, with the
    model endpoint unreachable: the exception of the model call leaves the
    analysis before the audit step, and no record is appended. *)
Theorem C5_no_audit_record_when_model_call_fails :
  let s := agent_over endpoint_down tt [("doc_save", "doc-7")] in
  let r := process_queue_iteration s in
  codex s !! "doc-7" = Some doc_7 /\
  r.1 = Raise (OtherException "connection reset") /\
  file_appends (since s r.2) = [] /\
  store_updates (since s r.2) = [].
Proof.
  intros s r. split; [exact sample_store_doc_7|].
  split_and!; vm_compute; reflexivity.
Qed.

(** *** Beyond the claims *)

Lemma ragged_store_doc_bare : ragged_store !! "doc-bare" = Some doc_bare.
Proof. unfold ragged_store. by simplify_map_eq. Qed.

Lemma ragged_store_doc_empty : ragged_store !! "doc-empty" = Some ∅.
Proof. unfold ragged_store. by simplify_map_eq. Qed.

Lemma build_prompt_doc_42 (answer : string -> result string)
    (parsed : result (gmap string pyval)) (verdict : option exn) :
  build_prompt (env := scripted answer parsed verdict) doc_42 = Ok prompt_7.
Proof. vm_compute. reflexivity. Qed.

Lemma X3_loop_writes_two_files_only_witness :
  let s := agent_over all_well tt [("doc_save", "doc-42")] in
  let f := "evaluations/prompt_completions_log.txt" in
  let content := log_content_of "doc-42" (PyStr "Section 1 ...") (Some "looks fine") in
  In (f, content) (file_appends (since s (process_queue 1 s).2)) /\
  (f = function_calls_file s \/ f = prompt_completions_file s).
Proof.
  intros s f content.
  assert (Hin : In (f, content) (file_appends (since s (process_queue 1 s).2))).
  { vm_compute. left. reflexivity. }
  split; [exact Hin|].
  exact (X3_loop_writes_two_files_only (env := all_well) 1 s f content Hin).
Defined.

Lemma X5_loop_never_stops_itself_witness :
  let s := agent_over endpoint_down tt [("doc_save", "doc-7")] in
  let r := process_queue 3 s in
  keep_running s = true /\
  (r.1 = Running \/ exists e, r.1 = Crashed e) /\
  keep_running r.2 = true.
Proof.
  intros s r. split; [reflexivity|].
  exact (X5_loop_never_stops_itself (env := endpoint_down) 3 s eq_refl).
Defined.

Lemma X7_empty_queue_polls_witness :
  let s := agent_over all_well tt [] in
  process_queue 3 s = (Running, record [Sleep; Sleep; Sleep] s).
Proof.
  intros s.
  exact (X7_empty_queue_polls (env := all_well) 3 s eq_refl eq_refl).
Defined.

Lemma X8_other_events_cost_nothing_witness :
  let s := agent_over endpoint_down tt
             [("pop_context_triggered", ""); ("shutdown", "now")] in
  let r := process_queue 5 s in
  (forall e, r.1 <> Crashed e) /\
  model_calls (since s r.2) = [] /\
  file_appends (since s r.2) = [] /\
  parse_calls (since s r.2) = [] /\
  store_updates (since s r.2) = [] /\
  codex r.2 = codex s.
Proof.
  intros s r.
  apply (X8_other_events_cost_nothing (env := endpoint_down) 5 s).
  vm_compute. reflexivity.
Defined.

Lemma doc_bare_not_empty : doc_bare <> ∅.
Proof.
  intros E. assert (H : doc_bare !! "system_message" = None).
  { rewrite E. apply lookup_empty. }
  vm_compute in H. discriminate H.
Qed.

Lemma X9_missing_field_raises_KeyError_witness :
  let s := init (env := all_well) ragged_store [] "evaluations" tt in
  let r := analyze_prompt_completions "doc-bare" s in
  (exists key, doc_bare !! key = None /\ r.1 = Raise (KeyError key)) /\
  model_calls (since s r.2) = [] /\
  file_appends (since s r.2) = [] /\
  store_updates (since s r.2) = [] /\
  codex r.2 = codex s.
Proof.
  intros s r.
  apply (X9_missing_field_raises_KeyError (env := all_well) "doc-bare" doc_bare
           (KeyError "finish_reason") s).
  - exact ragged_store_doc_bare.
  - exact doc_bare_not_empty.
  - vm_compute. reflexivity.
Defined.

Lemma X10_empty_document_is_not_found_witness :
  let s := init (env := all_well) ragged_store [] "evaluations" tt in
  analyze_prompt_completions "doc-empty" s =
    (Ok tt, record [Log ERROR "Document with ID doc-empty not found."] s).
Proof.
  intros s.
  exact (X10_empty_document_is_not_found (env := all_well) "doc-empty" s
           ragged_store_doc_empty).
Defined.

Lemma X11_empty_answer_is_no_answer_witness :
  let s := agent_over empty_answers tt [] in
  let r := analyze_prompt_completions "doc-7" s in
  r.1 = Ok tt /\
  model_calls (since s r.2) = [(prompt_7, "gpt-4-32k")] /\
  file_appends (since s r.2) =
    [("evaluations/prompt_completions_log.txt",
      log_content_of "doc-7" (PyStr "Section 1 ...") (Some ""))] /\
  last (since s r.2) = Some no_response_line /\
  parse_calls (since s r.2) = [] /\
  store_updates (since s r.2) = [] /\
  codex r.2 = codex s.
Proof.
  intros s r.
  apply (X11_empty_answer_is_no_answer (env := empty_answers) "doc-7" doc_7 prompt_7
           (PyStr "stop") (PyStr "Section 1 ...") tt s);
    [exact sample_store_doc_7 | apply build_prompt_doc_7 | vm_compute; reflexivity..].
Defined.

Lemma X12_answer_is_audited_parsed_and_stored_witness :
  let s := agent_over all_well tt [] in
  let r := analyze_prompt_completions "doc-42" s in
  r.1 = Ok tt /\
  file_appends (since s r.2) =
    [("evaluations/prompt_completions_log.txt",
      log_content_of "doc-42" (PyStr "Section 1 ...") (Some "looks fine"))] /\
  parse_calls (since s r.2) = ["looks fine"] /\
  store_updates (since s r.2) = [("doc-42", report_of sample_report)] /\
  codex r.2 = merge_fields "doc-42" (report_of sample_report) (codex s).
Proof.
  intros s r.
  apply (X12_answer_is_audited_parsed_and_stored (env := all_well) "doc-42" doc_42
           prompt_7 (PyStr "stop") (PyStr "Section 1 ...") "looks fine"
           (secondary_analysis_response (prompt_exception_of doc_42) prompt_7
              (note_prompt_exception doc_42 s).2).2
           sample_report tt tt s);
    [exact sample_store_doc_42 | apply build_prompt_doc_42 | try discriminate;
     vm_compute; reflexivity..].
Defined.

Lemma X13_rejected_update_is_logged_witness :
  let s := agent_over store_rejects tt [] in
  let r := analyze_prompt_completions "doc-42" s in
  r.1 = Ok tt /\
  last (since s r.2) =
    Some (Log ERROR
            "Failed to update document doc-42 with analysis report: write concern failed") /\
  file_appends (since s r.2) =
    [("evaluations/prompt_completions_log.txt",
      log_content_of "doc-42" (PyStr "Section 1 ...") (Some "looks fine"))] /\
  store_updates (since s r.2) = [] /\
  codex r.2 = codex s.
Proof.
  intros s r.
  apply (X13_rejected_update_is_logged (env := store_rejects) "doc-42" doc_42
           prompt_7 (PyStr "stop") (PyStr "Section 1 ...") "looks fine"
           (secondary_analysis_response (prompt_exception_of doc_42) prompt_7
              (note_prompt_exception doc_42 s).2).2
           sample_report (OtherException "write concern failed") tt tt s);
    [exact sample_store_doc_42 | apply build_prompt_doc_42 | try discriminate;
     vm_compute; reflexivity..].
Defined.

Lemma X14_parser_failure_after_audit_witness :
  let s := agent_over parser_broken tt [] in
  let r := analyze_prompt_completions "doc-42" s in
  r.1 = Raise (OtherException "no JSON found") /\
  file_appends (since s r.2) =
    [("evaluations/prompt_completions_log.txt",
      log_content_of "doc-42" (PyStr "Section 1 ...") (Some "looks fine"))] /\
  parse_calls (since s r.2) = ["looks fine"] /\
  store_updates (since s r.2) = [] /\
  log_lines ERROR (since s r.2) = [] /\
  codex r.2 = codex s.
Proof.
  intros s r.
  destruct (X14_parser_failure_after_audit (env := parser_broken) "doc-42" doc_42
           prompt_7 (PyStr "stop") (PyStr "Section 1 ...") "looks fine"
           (secondary_analysis_response (prompt_exception_of doc_42) prompt_7
              (note_prompt_exception doc_42 s).2).2
           (OtherException "no JSON found") tt s)
    as (H1 & H2 & H3 & H4 & H5 & H6);
    [exact sample_store_doc_42 | apply build_prompt_doc_42 | try discriminate;
     vm_compute; reflexivity.. |].
  split_and!; assumption.
Defined.

Lemma X15_missing_document_not_fatal_witness :
  let s := agent_over all_well tt [("doc_save", "doc-99"); ("doc_save", "doc-42")] in
  process_queue 2 s =
    process_queue 1
      (record [Print "Processing prompt completion from queue.";
               Log INFO "Dequeued document ID doc-99 to monitor";
               Log ERROR "Document with ID doc-99 not found."]
         (set_update_queue [("doc_save", "doc-42")] s)).
Proof.
  intros s.
  exact (X15_missing_document_not_fatal (env := all_well) 1 "doc-99"
           [("doc_save", "doc-42")] s eq_refl eq_refl sample_store_doc_99).
Defined.

Lemma X18_audit_record_routed_witness :
  let s := agent_over all_well tt [] in
  let r := analyze_prompt_completions "doc-42" s in
  file_appends (since s r.2) =
    [("evaluations/prompt_completions_log.txt",
      log_content_of "doc-42" (PyStr "Section 1 ...") (Some "looks fine"))] /\
  length (store_updates (since s r.2)) <= 1.
Proof.
  intros s r.
  destruct (X18_audit_record_routed (env := all_well) "doc-42" doc_42 prompt_7
              (PyStr "stop") (PyStr "Section 1 ...") (Some "looks fine")
              (secondary_analysis_response (prompt_exception_of doc_42) prompt_7
                 (note_prompt_exception doc_42 s).2).2 s)
    as (_ & Hgeneral & Hstore);
    [exact sample_store_doc_42 | apply build_prompt_doc_42 | vm_compute; reflexivity.. |].
  split; [|exact Hstore]. apply Hgeneral. discriminate.
Defined.

Lemma X19_queue_empty_from_the_analysis_witness :
  let s := agent_over endpoint_raises_empty tt
             [("doc_save", "doc-7"); ("doc_save", "doc-42")] in
  exists s',
    process_queue_iteration s = (Ok tt, s') /\
    process_queue 2 s = process_queue 1 s' /\
    update_queue s' = [("doc_save", "doc-42")] /\
    last (history s') = Some Sleep /\
    file_appends (since s s') = [] /\
    log_lines ERROR (since s s') = [].
Proof.
  intros s.
  apply (X19_queue_empty_from_the_analysis (env := endpoint_raises_empty) 1 "doc-7"
           [("doc_save", "doc-42")] doc_7 prompt_7 tt s);
    [reflexivity | reflexivity | exact sample_store_doc_7 | apply build_prompt_doc_7 |
     vm_compute; reflexivity].
Defined.

(** ** Properties of the tools *)

Section ToolsProperties.

Context `{services : Tools.Services}.

Implicit Types (s : Tools.state) (limit : pyval) (fields : list string).

Lemma perform_perform (es1 es2 : list Tools.effect) (w1 w2 : Tools.world) s :
  Tools.perform es2 w2 (Tools.perform es1 w1 s) = Tools.perform (es1 ++ es2) w2 s.
Proof. unfold Tools.perform. cbn. by rewrite app_assoc. Qed.

Lemma perform_nil s : Tools.perform [] (Tools.outside s) s = s.
Proof. destruct s. unfold Tools.perform. cbn. by rewrite app_nil_r. Qed.

(** The loop over a list of queries that is the concatenation of two. *)
Lemma for_queries_app (queries1 queries2 : list string) limit fields
    (url : option string) s :
  Tools.for_queries (queries1 ++ queries2) limit fields url s =
    match Tools.for_queries queries1 limit fields url s with
    | (Tools.Returned url', s') => Tools.for_queries queries2 limit fields url' s'
    | (Tools.Raised e, s') => (Tools.Raised e, s')
    end.
Proof.
  revert url s. induction queries1 as [|q queries1 IH]; intros url s; [done|].
  cbn [app Tools.for_queries].
  destruct (Tools.fetch (Tools.url_of q limit fields) s) as [[j|e] s']; [|done].
  apply IH.
Qed.

(** X20: with an empty list of queries the tool sends no request and fails:
    the url that the request after the loop needs was never assigned. *)
Theorem X20_no_query_no_result limit fields s :
  Tools.retrieve_relevant_literature [] limit fields s =
    (Tools.Raised (Tools.UnboundLocalError "url"), s) /\
  Tools.requested
    (Tools.trace (Tools.retrieve_relevant_literature [] limit fields s).2) =
  Tools.requested (Tools.trace s).
Proof. split; reflexivity. Qed.

Lemma fetch_answered (url : string) s :
  (forall w u, exists r w' j,
      Tools.requests_get w u = (Tools.Returned r, w') /\
      Tools.response_json r = Tools.Returned j) ->
  exists j w', Tools.fetch url s = (Tools.Returned j, Tools.perform [Tools.Get url] w' s).
Proof.
  intros H. destruct (H (Tools.outside s) url) as (r & w' & j & Eget & Ejson).
  exists j, w'. unfold Tools.fetch. by rewrite Eget, Ejson.
Qed.

Lemma for_queries_answered (queries : list string) limit fields
    (url : option string) s :
  (forall w u, exists r w' j,
      Tools.requests_get w u = (Tools.Returned r, w') /\
      Tools.response_json r = Tools.Returned j) ->
  exists w',
    Tools.for_queries queries limit fields url s =
      (Tools.Returned
         (from_option (fun q => Some (Tools.url_of q limit fields)) url (last queries)),
       Tools.perform
         (map (fun q => Tools.Get (Tools.url_of q limit fields)) queries) w' s).
Proof.
  intros H. revert url s. induction queries as [|q queries IH]; intros url s.
  { exists (Tools.outside s). cbn. by rewrite perform_nil. }
  cbn [Tools.for_queries].
  destruct (fetch_answered (Tools.url_of q limit fields) s H) as (j & w1 & ->).
  destruct (IH (Some (Tools.url_of q limit fields))
              (Tools.perform [Tools.Get (Tools.url_of q limit fields)] w1 s))
    as (w' & ->).
  exists w'. rewrite perform_perform.
  rewrite last_cons. by destruct (last queries).
Qed.

(** X21: when every request is answered, the tool sends one request more
    than there are queries: one for each query in order, and then the one
    for the last query a second time.  What it returns is the answer to that
    repeated request; the answers to the others are dropped. *)
Theorem X21_last_query_asked_twice (queries : list string) (query : string)
    limit fields s :
  (forall w u, exists r w' j,
      Tools.requests_get w u = (Tools.Returned r, w') /\
      Tools.response_json r = Tools.Returned j) ->
  let url q := Tools.url_of q limit fields in
  let r := Tools.retrieve_relevant_literature (queries ++ [query]) limit fields s in
  (exists j, r.1 = Tools.Returned j) /\
  r = Tools.fetch (url query)
        (Tools.for_queries (queries ++ [query]) limit fields None s).2 /\
  Tools.trace r.2 =
    Tools.trace s ++ map (fun q => Tools.Get (url q)) (queries ++ [query]) ++
    [Tools.Get (url query)].
Proof.
  intros H url r. subst r url. cbv beta. unfold Tools.retrieve_relevant_literature.
  destruct (for_queries_answered (queries ++ [query]) limit fields None s H)
    as (w' & ->).
  rewrite last_snoc. cbn [from_option snd].
  match goal with
  | |- context [Tools.fetch ?u ?s1] =>
      destruct (fetch_answered u s1 H) as (j & w'' & ->)
  end.
  split; [by exists j|]. split; [done|].
  cbn [snd]. rewrite perform_perform. cbn [Tools.perform Tools.trace].
  reflexivity.
Qed.

(** X22: a request that fails ends the retrieval with its exception.  The
    queries after it are not requested, and neither is the repeated request
    after the loop. *)
Theorem X22_failed_request_ends_retrieval (before after : list string)
    (query : string) limit fields (url : option string) (e : Tools.exn)
    (w : Tools.world) s s1 :
  Tools.for_queries before limit fields None s = (Tools.Returned url, s1) ->
  Tools.requests_get (Tools.outside s1) (Tools.url_of query limit fields) =
    (Tools.Raised e, w) ->
  Tools.retrieve_relevant_literature (before ++ query :: after) limit fields s =
    (Tools.Raised e,
     Tools.perform [Tools.Get (Tools.url_of query limit fields)] w s1).
Proof.
  intros Ebefore Eget. unfold Tools.retrieve_relevant_literature.
  rewrite for_queries_app, Ebefore. cbn [Tools.for_queries].
  unfold Tools.fetch. by rewrite Eget.
Qed.

(** *** save_draft and the paths *)

Lemma os_path_join_app (dir name rest : string) :
  name <> "" ->
  os_path_join dir (name +:+ rest) = os_path_join dir name +:+ rest.
Proof.
  intros _. unfold os_path_join. destruct dir as [|c dir]; [done|].
  destruct (ends_with_slash (String c dir)); by rewrite !string_append_assoc.
Qed.

Lemma os_path_join_suffix (dir name : string) :
  exists before, os_path_join dir name = before +:+ name.
Proof.
  unfold os_path_join. destruct dir as [|c dir]; [by exists ""|].
  destruct (ends_with_slash (String c dir)).
  - by exists (String c dir).
  - exists (String c dir +:+ "/"). by rewrite string_append_assoc.
Qed.

Lemma ends_with_slash_snoc (p : string) : ends_with_slash (p +:+ "/") = true.
Proof.
  induction p as [|c p IH]; [done|].
  change (String c p +:+ "/") with (String c (p +:+ "/")).
  cbn [ends_with_slash]. destruct (p +:+ "/") eqn:E; [by destruct p|done].
Qed.

Lemma os_path_join_slash (dir name : string) :
  os_path_join (dir +:+ "/") name = dir +:+ "/" +:+ name.
Proof.
  unfold os_path_join. rewrite ends_with_slash_snoc.
  rewrite string_append_assoc. by destruct dir.
Qed.

Lemma head_to_last_slash_none (name : string) :
  Tools.no_slash name = true -> head_to_last_slash name = "".
Proof.
  induction name as [|c name IH]; [done|].
  cbn [Tools.no_slash head_to_last_slash]. intros [Hc Hn]%andb_prop.
  rewrite (IH Hn). by destruct (Ascii.eqb c "/").
Qed.

Lemma head_to_last_slash_dir (dir name : string) :
  Tools.no_slash name = true ->
  head_to_last_slash (dir +:+ "/" +:+ name) = dir +:+ "/".
Proof.
  intros Hn. induction dir as [|c dir IH].
  - change ("" +:+ "/" +:+ name) with (String "/" name).
    cbn [head_to_last_slash]. by rewrite (head_to_last_slash_none _ Hn).
  - change (String c dir +:+ "/" +:+ name) with (String c (dir +:+ "/" +:+ name)).
    cbn [head_to_last_slash]. rewrite IH.
    change (String c dir +:+ "/") with (String c (dir +:+ "/")).
    destruct (Ascii.eqb c "/"); [done|]. by destruct dir.
Qed.

Lemma all_slashes_app (a b : string) :
  all_slashes (a +:+ b) = all_slashes a && all_slashes b.
Proof.
  induction a as [|c a IH]; [done|].
  change (String c a +:+ b) with (String c (a +:+ b)).
  cbn [all_slashes]. by rewrite IH, andb_assoc.
Qed.

Lemma rstrip_slashes_snoc (p : string) :
  rstrip_slashes (p +:+ "/") = rstrip_slashes p.
Proof.
  induction p as [|c p IH]; [done|].
  change (String c p +:+ "/") with (String c (p +:+ "/")).
  cbn [rstrip_slashes]. by rewrite IH.
Qed.

Lemma rstrip_slashes_keeps (before name : string) :
  name <> "" ->
  rstrip_slashes name = name ->
  rstrip_slashes (before +:+ name) = before +:+ name.
Proof.
  intros Hne Hname. induction before as [|c before IH]; [done|].
  change (String c before +:+ name) with (String c (before +:+ name)).
  cbn [rstrip_slashes]. rewrite IH.
  destruct (before +:+ name) eqn:E; [|done].
  destruct before; [by subst|done].
Qed.

(** X23: save_draft writes a file exactly when the draft decodes as JSON.
    When it does not, the decoding error is printed, neither a directory nor
    a file is made, and None is returned.  When it does, the directory
    ROOT_DIR/celi_framework/examples/lit-review/output/draft is made, the
    file response-<timestamp>.txt is written directly in it, and the decoded
    draft is returned. *)
Theorem X23_save_draft_writes_into_the_draft_directory (root draft_dict : string)
    (timestamp : string) (w : Tools.world) s :
  Tools.strftime_now (Tools.outside s) = (timestamp, w) ->
  Tools.no_slash timestamp = true ->
  let directory :=
    os_path_join root "celi_framework/examples/lit-review/output/draft" in
  let file := directory +:+ "/" +:+ "response-" +:+ timestamp +:+ ".txt" in
  let logged :=
    Tools.perform
      [Tools.LoggerInfo ("DRAFT DICT TEXT LOOKS LIKE THIS" +:+ nl +:+ draft_dict)] w s in
  Tools.save_draft (Some root) draft_dict s =
    match Tools.json_loads draft_dict with
    | inr e =>
        (Tools.Returned None,
         Tools.perform [Tools.Print ("Failed to decode JSON: " +:+ e)] w logged)
    | inl structured_dict =>
        (Tools.Returned (Some structured_dict),
         Tools.perform
           [Tools.MakeDirs directory;
            Tools.WriteFile file (Tools.json_dumps structured_dict)] w logged)
    end.
Proof.
  intros Enow Hts directory file logged.
  unfold Tools.save_draft. rewrite Enow.
  destruct (Tools.json_loads draft_dict) as [j|e]; [|done].
  assert (Hname : Tools.no_slash ("response-" +:+ timestamp +:+ ".txt") = true).
  { assert (forall a b, Tools.no_slash a = true -> Tools.no_slash b = true ->
                        Tools.no_slash (a +:+ b) = true) as Happ.
    { intros a b Ha Hb. induction a as [|c a IH]; [done|].
      change (String c a +:+ b) with (String c (a +:+ b)).
      cbn [Tools.no_slash] in *. apply andb_prop in Ha as [Hc Ha].
      by rewrite Hc, IH. }
    apply Happ; [done|]. by apply Happ. }
  assert (Edir : os_path_join root Tools.draft_directory = directory +:+ "/").
  { unfold Tools.draft_directory, directory.
    by rewrite <- os_path_join_app. }
  rewrite Edir, os_path_join_slash.
  unfold os_path_dirname. rewrite (head_to_last_slash_dir _ _ Hname).
  assert (Hslashes : all_slashes (directory +:+ "/") = false).
  { rewrite all_slashes_app.
    destruct (os_path_join_suffix root
                "celi_framework/examples/lit-review/output/draft") as [before E].
    unfold directory. rewrite E, all_slashes_app.
    by rewrite andb_false_r. }
  assert (Htruthy : str_truthy (directory +:+ "/") = true).
  { by destruct directory. }
  rewrite Hslashes, Htruthy. cbn [andb negb].
  rewrite rstrip_slashes_snoc.
  destruct (os_path_join_suffix root
              "celi_framework/examples/lit-review/output/draft") as [before E].
  assert (Estrip : rstrip_slashes directory = directory).
  { unfold directory. rewrite E. by apply rstrip_slashes_keeps. }
  rewrite Estrip. reflexivity.
Qed.

End ToolsProperties.

(** *** The tools, run *)

Lemma X21_last_query_asked_twice_witness :
  let s := Tools.mkState (services := scripted_services [] "010124-120000") tt [] in
  let url q := Tools.url_of q Tools.default_limit Tools.default_fields in
  let r :=
    Tools.retrieve_relevant_literature ["large multimodal agents"; "tool use"]
      Tools.default_limit Tools.default_fields s in
  (forall w u, exists r' w' j,
      Tools.requests_get (Services := scripted_services [] "010124-120000") w u =
        (Tools.Returned r', w') /\
      Tools.response_json r' = Tools.Returned j) /\
  Tools.trace r.2 =
    [Tools.Get (url "large multimodal agents"); Tools.Get (url "tool use");
     Tools.Get (url "tool use")].
Proof.
  intros s url r.
  assert (H : forall w u, exists r' w' j,
             Tools.requests_get (Services := scripted_services [] "010124-120000") w u =
               (Tools.Returned r', w') /\
             Tools.response_json r' = Tools.Returned j).
  { intros w u. exists u, w, ("papers for " +:+ u). split; reflexivity. }
  split; [exact H|].
  exact (proj2 (proj2 (X21_last_query_asked_twice
                        (services := scripted_services [] "010124-120000")
                        ["large multimodal agents"] "tool use"
                        Tools.default_limit Tools.default_fields s H))).
Defined.

Lemma X22_failed_request_ends_retrieval_witness :
  let url q := Tools.url_of q Tools.default_limit Tools.default_fields in
  let services := scripted_services [url "tool use"] "010124-120000" in
  let s := Tools.mkState (services := services) tt [] in
  Tools.retrieve_relevant_literature (services := services)
    ["large multimodal agents"; "tool use"; "planning"]
    Tools.default_limit Tools.default_fields s =
    (Tools.Raised (Tools.OtherError "connection refused"),
     Tools.mkState (services := services) tt
       [Tools.Get (url "large multimodal agents"); Tools.Get (url "tool use")]).
Proof.
  intros url services s.
  exact (X22_failed_request_ends_retrieval (services := services)
           ["large multimodal agents"] ["planning"] "tool use"
           Tools.default_limit Tools.default_fields
           (Some (url "large multimodal agents"))
           (Tools.OtherError "connection refused") tt s
           (Tools.perform (services := services)
              [Tools.Get (url "large multimodal agents")] tt s)
           ltac:(vm_compute; reflexivity) ltac:(vm_compute; reflexivity)).
Defined.

Lemma X23_save_draft_writes_into_the_draft_directory_witness :
  let services := scripted_services [] "010124-120000" in
  let s := Tools.mkState (services := services) tt [] in
  Tools.save_draft (services := services) (Some "/srv/celi") "{'draft': 1}" s =
    (Tools.Returned (Some "{'draft': 1}"),
     Tools.mkState (services := services) tt
       [Tools.LoggerInfo ("DRAFT DICT TEXT LOOKS LIKE THIS" +:+ nl +:+ "{'draft': 1}");
        Tools.MakeDirs "/srv/celi/celi_framework/examples/lit-review/output/draft";
        Tools.WriteFile
          "/srv/celi/celi_framework/examples/lit-review/output/draft/response-010124-120000.txt"
          "{'draft': 1}"]).
Proof.
  intros services s.
  exact (X23_save_draft_writes_into_the_draft_directory (services := services)
           "/srv/celi" "{'draft': 1}" "010124-120000" tt s eq_refl eq_refl).
Defined.

Lemma X24_missing_and_null_prompt_exception_witness :
  let s := agent_over endpoint_down tt [] in
  doc_7 !! "prompt_exception" = None /\
  exists rest,
    since s (analyze_prompt_completions "doc-7" s).2 =
      Log INFO ("Handling exception by analyzing the prompt completion:" +:+ nl +:+
                "Section 1 ...") ::
      QuickAsk prompt_7 "gpt-4-32k" :: rest.
Proof.
  intros s.
  assert (E : doc_7 !! "prompt_exception" = None) by (vm_compute; reflexivity).
  split; [exact E|].
  exact (proj1 (X24_missing_and_null_prompt_exception (env := endpoint_down) "doc-7"
                  doc_7 prompt_7 (PyStr "Section 1 ...") s sample_store_doc_7
                  (build_prompt_doc_7 _ _ _) ltac:(vm_compute; reflexivity)) E).
Defined.
